(** * machineout: machine-readable failure lines for nose

    A shallow embedding of [machineout.py] (the nose plugin
    [NoseMachineReadableOutput]) and the properties of its three parts:
    the stack-frame selector ([_calcScore], [_selectBestStackFrame]),
    the doctest report parser ([doctest_value_pattern], [_format_doctests])
    and the line emitter ([_format_testfname], [_write_lines]).

    Python values are modelled as follows.
    - [str] is [string]; the characters are the 8-bit [ascii] ones.
    - [int] is [Z].
    - the score of a frame, a Python float of the form [k / 7.0] with [k]
      an integer between 0 and 7, is the rational [k / 7] in [Q]: the
      additions are exact on such small integers, the division is monotone,
      and [7.0 / 7.0] is [1.0], so every comparison the plugin makes has
      the same outcome on the rationals.
    - an exception is a value of [exn]; a function that may raise returns
      a [result]; a generator returns a [run]: what it yielded, and the
      exception that ended it, if any.
    - the output stream is the list of the lines written so far. *)

From Stdlib Require Import Bool List Arith ZArith QArith Lia Ascii String DecimalString.
Import ListNotations.
Close Scope Q_scope.
Open Scope string_scope.

(* ================================================================= *)
(** ** Exceptions, results, generators *)

Inductive exn : Type :=
| AttributeError   (* [None.groups()] *)
| ValueError       (* [int('')] *)
| TypeError        (* [int(None)] *)
| IndexError.      (* [[][-1]], [[].pop()] *)

Inductive result (A : Type) : Type :=
| Ok (a : A)
| Raise (e : exn).
Arguments Ok {A} a.
Arguments Raise {A} e.

Definition bind {A B : Type} (r : result A) (f : A -> result B) : result B :=
  match r with
  | Ok a => f a
  | Raise e => Raise e
  end.

Notation "x <- r ;; k" := (bind r (fun x => k))
  (at level 61, r at next level, right associativity).

(** What a generator did when it was run to its end: the values it
    yielded, in order, and the exception that stopped it ([None] when it
    returned normally). *)
Record run (A : Type) : Type := mkRun {
  yielded : list A;
  raised : option exn
}.
Arguments mkRun {A} yielded raised.
Arguments yielded {A} r.
Arguments raised {A} r.

(* ================================================================= *)
(** ** The Python string operations the plugin calls *)

Module PyStr.

Definition LF : ascii := "010"%char.
Definition TAB : ascii := "009"%char.
Definition CR : ascii := "013"%char.
Definition DQ : ascii := "034"%char.
Definition SQ : ascii := "039"%char.
Definition BSL : ascii := "092"%char.

Definition chr (a : ascii) : string := String a EmptyString.

(** [s.startswith(p)] *)
Definition startswith (s p : string) : bool := String.prefix p s.

(** [s[n:]] for [0 <= n] *)
Fixpoint slice_from (n : nat) (s : string) : string :=
  match n, s with
  | O, _ => s
  | S _, EmptyString => EmptyString
  | S n', String _ s' => slice_from n' s'
  end.

(** [s.find(sub)]: the lowest index where [sub] occurs, or -1 *)
Fixpoint find_from (i : Z) (s sub : string) : Z :=
  if String.prefix sub s then i
  else match s with
       | EmptyString => (-1)%Z
       | String _ s' => find_from (i + 1)%Z s' sub
       end.

Definition find (s sub : string) : Z := find_from 0%Z s sub.

(** [s.rfind(sub)]: the highest index where [sub] occurs, or -1 *)
Fixpoint rfind_from (i : Z) (s sub : string) (found : Z) : Z :=
  let found' := if String.prefix sub s then i else found in
  match s with
  | EmptyString => found'
  | String _ s' => rfind_from (i + 1)%Z s' sub found'
  end.

Definition rfind (s sub : string) : Z := rfind_from 0%Z s sub (-1)%Z.

(** [os.path.basename(p)] of posixpath:
    [i = p.rfind('/') + 1; return p[i:]] *)
Definition basename (p : string) : string :=
  let i := (rfind p "/" + 1)%Z in
  slice_from (Z.to_nat i) p.

(** [s * n] *)
Fixpoint mul (s : string) (n : nat) : string :=
  match n with
  | O => EmptyString
  | S n' => s ++ mul s n'
  end.

(** ["%d" % z] *)
Definition format_d (z : Z) : string := NilZero.string_of_int (Z.to_int z).

(** [s.lstrip(c)], [s.rstrip(c)], [s.strip(c)] for a one-character [c] *)
Fixpoint lstrip (c : ascii) (s : string) : string :=
  match s with
  | EmptyString => EmptyString
  | String a s' => if Ascii.eqb a c then lstrip c s' else s
  end.

Fixpoint rstrip (c : ascii) (s : string) : string :=
  match s with
  | EmptyString => EmptyString
  | String a s' =>
      match rstrip c s' with
      | EmptyString => if Ascii.eqb a c then EmptyString else chr a
      | r => String a r
      end
  end.

Definition strip (c : ascii) (s : string) : string := rstrip c (lstrip c s).

(** [s.split(c)] for a one-character separator: never the empty list *)
Fixpoint split (c : ascii) (s : string) : list string :=
  match s with
  | EmptyString => [EmptyString]
  | String a s' =>
      if Ascii.eqb a c then EmptyString :: split c s'
      else match split c s' with
           | [] => [chr a]
           | l :: ls => String a l :: ls
           end
  end.

(** [c.join(ls)] *)
Definition join (c : ascii) (ls : list string) : string :=
  String.concat (chr c) ls.

(** [c in s] *)
Fixpoint mem (c : ascii) (s : string) : bool :=
  match s with
  | EmptyString => false
  | String a s' => Ascii.eqb a c || mem c s'
  end.

(** [int(s)] for a string of decimal digits, as [\d*] captures it *)
Definition digit_val (a : ascii) : option Z :=
  let n := nat_of_ascii a in
  if Nat.leb 48 n && Nat.leb n 57 then Some (Z.of_nat (n - 48)) else None.

Fixpoint int_acc (acc : Z) (s : string) : result Z :=
  match s with
  | EmptyString => Ok acc
  | String a s' =>
      match digit_val a with
      | Some d => int_acc (10 * acc + d)%Z s'
      | None => Raise ValueError
      end
  end.

Definition int (s : string) : result Z :=
  match s with
  | EmptyString => Raise ValueError
  | _ => int_acc 0%Z s
  end.

(** [repr(s)] of a [str]: single quotes, unless the text has a single
    quote and no double quote; backslash, the quote, and the characters
    outside printable ASCII escaped. *)
Definition hex_digit (n : nat) : ascii :=
  if Nat.ltb n 10 then ascii_of_nat (48 + n) else ascii_of_nat (87 + n).

Definition repr_char (q a : ascii) : string :=
  if Ascii.eqb a BSL then String BSL (chr BSL)
  else if Ascii.eqb a q then String BSL (chr q)
  else if Ascii.eqb a LF then String BSL "n"
  else if Ascii.eqb a CR then String BSL "r"
  else if Ascii.eqb a TAB then String BSL "t"
  else let n := nat_of_ascii a in
       if Nat.ltb n 32 || Nat.leb 127 n
       then String BSL (String "x" (String (hex_digit (n / 16)) (chr (hex_digit (n mod 16)))))
       else chr a.

Fixpoint repr_body (q : ascii) (s : string) : string :=
  match s with
  | EmptyString => EmptyString
  | String a s' => repr_char q a ++ repr_body q s'
  end.

Definition repr_str (s : string) : string :=
  let q := if mem SQ s && negb (mem DQ s) then DQ else SQ in
  String q (repr_body q s ++ chr q).

(** [repr(v)] where [v] is a [str] or [None] *)
Definition repr (v : option string) : string :=
  match v with
  | None => "None"
  | Some s => repr_str s
  end.

End PyStr.

(** [l[-1]] *)
Fixpoint last_item {A : Type} (l : list A) : result A :=
  match l with
  | [] => Raise IndexError
  | [x] => Ok x
  | _ :: l' => last_item l'
  end.

(** [l.pop()]: the last item, and the list without it *)
Fixpoint pop {A : Type} (l : list A) : result (A * list A) :=
  match l with
  | [] => Raise IndexError
  | [x] => Ok (x, [])
  | y :: l' => p <- pop l' ;; Ok (fst p, y :: snd p)
  end.

(* ================================================================= *)
(** ** Regular expressions: the fragment of [re] the plugin uses

    A backtracking matcher in continuation-passing style, with the
    priorities of Python's [re]: a starred class is greedy and gives
    characters back one at a time, an alternation tries its left branch
    first, an optional item is tried present first.  A group keeps the
    text of its last successful match on the path that succeeds. *)

Module Re.

(** Character classes: [.] under [DOTALL], [[^c]], [c], [\d] as [[0-9]]
    and [\s] as [[ \t\n\r\f\v]] *)
Inductive cclass : Type :=
| CAny
| CNot (c : ascii)
| CChar (c : ascii)
| CDigit
| CSpace.

Definition in_class (cl : cclass) (a : ascii) : bool :=
  match cl with
  | CAny => true
  | CNot c => negb (Ascii.eqb a c)
  | CChar c => Ascii.eqb a c
  | CDigit => let n := nat_of_ascii a in Nat.leb 48 n && Nat.leb n 57
  | CSpace => let n := nat_of_ascii a in
              Nat.eqb n 32 || (Nat.leb 9 n && Nat.leb n 13)
  end.

(** Every character of [s] is in the class *)
Fixpoint all_in (cl : cclass) (s : string) : bool :=
  match s with
  | EmptyString => true
  | String a s' => in_class cl a && all_in cl s'
  end.

(** [s] without its longest prefix in the class *)
Fixpoint skip_class (cl : cclass) (s : string) : string :=
  match s with
  | EmptyString => EmptyString
  | String a s' => if in_class cl a then skip_class cl s' else s
  end.

(** The class does not go on at the start of [s] *)
Definition stops (cl : cclass) (s : string) : bool :=
  match s with
  | EmptyString => true
  | String a _ => negb (in_class cl a)
  end.

Inductive regex : Type :=
| Lit (s : string)              (* literal text *)
| Star (cl : cclass)            (* [cl*], greedy *)
| Plus (cl : cclass)            (* [cl+], greedy *)
| Opt (r : regex)               (* [r?], greedy *)
| Seq (r1 r2 : regex)           (* [r1 r2] *)
| Alt (r1 r2 : regex)           (* [r1|r2] *)
| Group (i : nat) (r : regex).  (* the i-th capturing group, from 1 *)

(** The groups of a match, group 1 first; [None] for a group that did
    not take part in the match. *)
Definition groups : Type := list (option string).

Fixpoint set_nth (i : nat) (v : option string) (g : groups) : groups :=
  match g, i with
  | [], _ => []
  | _ :: g', O => v :: g'
  | x :: g', S i' => x :: set_nth i' v g'
  end.

Definition set_group (i : nat) (v : string) (g : groups) : groups :=
  set_nth (i - 1) (Some v) g.

Fixpoint ngroups (r : regex) : nat :=
  match r with
  | Lit _ | Star _ | Plus _ => 0
  | Opt r1 => ngroups r1
  | Seq r1 r2 | Alt r1 r2 => Nat.max (ngroups r1) (ngroups r2)
  | Group i r1 => Nat.max i (ngroups r1)
  end.

(** No group of [r] has an index of [n] or less *)
Fixpoint group_free (n : nat) (r : regex) : bool :=
  match r with
  | Lit _ | Star _ | Plus _ => true
  | Opt r1 => group_free n r1
  | Seq r1 r2 | Alt r1 r2 => group_free n r1 && group_free n r2
  | Group i r1 => Nat.ltb n i && group_free n r1
  end.

(** [s] without its prefix [p], when it has it *)
Fixpoint strip_prefix (p s : string) : option string :=
  match p, s with
  | EmptyString, _ => Some s
  | String _ _, EmptyString => None
  | String a p', String b s' =>
      if Ascii.eqb a b then strip_prefix p' s' else None
  end.

(** The text matched between [s] and its suffix [s'] *)
Definition consumed (s s' : string) : string :=
  String.substring 0 (String.length s - String.length s') s.

Section Matcher.
Context {R : Type}.

(** [cl*] then [k]: the longest run first *)
Fixpoint star (cl : cclass) (s : string) (k : string -> option R) : option R :=
  match s with
  | EmptyString => k s
  | String a s' =>
      if in_class cl a then
        match star cl s' k with
        | Some r => Some r
        | None => k s
        end
      else k s
  end.

Fixpoint rmatch (r : regex) (s : string) (g : groups)
         (k : string -> groups -> option R) : option R :=
  match r with
  | Lit l =>
      match strip_prefix l s with
      | Some s' => k s' g
      | None => None
      end
  | Star cl => star cl s (fun s' => k s' g)
  | Plus cl =>
      match s with
      | EmptyString => None
      | String a s' =>
          if in_class cl a then star cl s' (fun s'' => k s'' g) else None
      end
  | Opt r1 =>
      match rmatch r1 s g k with
      | Some x => Some x
      | None => k s g
      end
  | Seq r1 r2 => rmatch r1 s g (fun s' g' => rmatch r2 s' g' k)
  | Alt r1 r2 =>
      match rmatch r1 s g k with
      | Some x => Some x
      | None => rmatch r2 s g k
      end
  | Group i r1 =>
      rmatch r1 s g (fun s' g' => k s' (set_group i (consumed s s') g'))
  end.
End Matcher.

(** [r] can take the matcher from [s] with groups [g] to [s'] with
    groups [g']: whenever the rest of the pattern matches from there,
    the whole matches, with the result of the rest. *)
Definition leads (r : regex) (s : string) (g : groups)
           (s' : string) (g' : groups) : Prop :=
  forall (R : Type) (k : string -> groups -> option R) (x : R),
    k s' g' = Some x -> rmatch r s g k = Some x.

(** [r] does not match at the start of [s], whatever follows it *)
Definition fails (r : regex) (s : string) (g : groups) : Prop :=
  forall (R : Type) (k : string -> groups -> option R),
    rmatch r s g k = None.

(** [r.match(s)]: a match that starts at the start of [s]; its groups
    and the text left after it *)
Definition match_at (r : regex) (s : string) : option (groups * string) :=
  rmatch r s (repeat None (ngroups r)) (fun s' g => Some (g, s')).

(** [r.search(s).groups()]: the groups of the leftmost match, [None]
    when there is no match *)
Fixpoint search (r : regex) (s : string) : option groups :=
  match match_at r s with
  | Some (g, _) => Some g
  | None =>
      match s with
      | EmptyString => None
      | String _ s' => search r s'
      end
  end.

(** [r.search(s).groups()] as a list, empty when there is no match *)
Definition groups_of_search (r : regex) (s : string) : groups :=
  match search r s with
  | Some g => g
  | None => []
  end.

(** [re.split(r, s)] for an [r] without groups that matches no empty
    text: [skip] counts the characters of the current separator still
    to pass, [cur] is the piece read so far. *)
Fixpoint split_from (r : regex) (s : string) (skip : nat) (cur : string)
  : list string :=
  match skip with
  | S n =>
      match s with
      | EmptyString => [cur]
      | String _ s' => split_from r s' n cur
      end
  | O =>
      match s with
      | EmptyString => [cur]
      | String a s' =>
          match match_at r s with
          | Some (_, rest) =>
              let n := String.length s - String.length rest in
              match n with
              | O => split_from r s' 0 (cur ++ PyStr.chr a)
              | S n' => cur :: split_from r s' n' EmptyString
              end
          | None => split_from r s' 0 (cur ++ PyStr.chr a)
          end
      end
  end.

Definition split (r : regex) (s : string) : list string :=
  split_from r s 0 EmptyString.

End Re.

Declare Scope regex_scope.
Delimit Scope regex_scope with re.
Notation "r1 ;; r2" := (Re.Seq r1 r2)
  (at level 61, right associativity) : regex_scope.

(* ================================================================= *)
(** ** [textwrap.dedent]

    The standard library's function, as its source has it: lines of
    blanks and tabs only become empty; the margin is the longest run of
    blanks and tabs that starts every other line; the margin is removed
    from the start of every line that has it. *)

Module Textwrap.

Definition is_blank (a : ascii) : bool :=
  Ascii.eqb a " " || Ascii.eqb a PyStr.TAB.

Fixpoint all_blank (s : string) : bool :=
  match s with
  | EmptyString => true
  | String a s' => is_blank a && all_blank s'
  end.

(** [_whitespace_only_re.sub('', text)], a line at a time *)
Definition clear_blank_line (l : string) : string :=
  if all_blank l then EmptyString else l.

(** the [[ \t]*] that starts a line *)
Fixpoint indent_of (l : string) : string :=
  match l with
  | EmptyString => EmptyString
  | String a l' => if is_blank a then String a (indent_of l') else EmptyString
  end.

(** [_leading_whitespace_re.findall(text)]: the indents of the lines
    that have a character other than a blank or a tab *)
Fixpoint indents (ls : list string) : list string :=
  match ls with
  | [] => []
  | l :: ls' =>
      if all_blank l then indents ls' else indent_of l :: indents ls'
  end.

Fixpoint common_prefix (a b : string) : string :=
  match a, b with
  | String x a', String y b' =>
      if Ascii.eqb x y then String x (common_prefix a' b') else EmptyString
  | _, _ => EmptyString
  end.

(** One turn of the loop over the indents *)
Definition margin_step (margin : option string) (indent : string) : option string :=
  match margin with
  | None => Some indent
  | Some m =>
      if PyStr.startswith indent m then Some m
      else if PyStr.startswith m indent then Some indent
      else Some (common_prefix m indent)
  end.

Definition margin_of (ls : list string) : option string :=
  fold_left margin_step (indents ls) None.

(** [re.sub(r'(?m)^' + margin, '', text)], a line at a time *)
Definition remove_margin (m l : string) : string :=
  match Re.strip_prefix m l with
  | Some l' => l'
  | None => l
  end.

Definition dedent (text : string) : string :=
  let ls := map clear_blank_line (PyStr.split PyStr.LF text) in
  match margin_of ls with
  | Some (String a m) => PyStr.join PyStr.LF (map (remove_margin (String a m)) ls)
  | _ => PyStr.join PyStr.LF ls
  end.

End Textwrap.

(* ================================================================= *)
(** ** The plugin *)

Import PyStr.

(** An entry of [traceback.extract_tb]: [(filename, lineno, name, line)] *)
Record frame : Type := mkFrame {
  frame_fname : string;
  frame_lineno : Z;
  frame_funname : string;
  frame_text : option string
}.

(** What [_format_doctests] yields and [_write_lines] takes:
    [(etype, fname, lineno, lines)] *)
Record lineset : Type := mkLineset {
  ls_etype : string;
  ls_fname : string;
  ls_lineno : Z;
  ls_lines : list string
}.

(** The plugin object: [self.basepath], and the lines written to
    [self.stream] so far. *)
Record NoseMachineReadableOutput : Type := mkPlugin {
  basepath : string;
  stream : list string
}.

(** [self.stream.writeln(line)] *)
Definition writeln (self : NoseMachineReadableOutput) (line : string)
  : NoseMachineReadableOutput :=
  mkPlugin (basepath self) (stream self ++ [line]).

(** Truth of a value that is a [str] or [None] *)
Definition truthy (v : option string) : bool :=
  match v with
  | Some (String _ _) => true
  | _ => false
  end.

(** *** The frame selector *)

Definition _calcScore (self : NoseMachineReadableOutput) (fr : frame) : Q :=
  let fname := frame_fname fr in
  let funname := frame_funname fr in
  let score := 0%Q in
  let max_score := 7%Q in
  let score := if startswith fname (basepath self) then (score + 4)%Q else score in
  let score := if (find (basename fname) "test" >=? 0)%Z then (score + 2)%Q else score in
  let score := if negb (startswith funname "assert") then (score + 1)%Q else score in
  (score / max_score)%Q.

(** [x > y] and [x >= y] on scores *)
Definition Qgt_bool (x y : Q) : bool := negb (Qle_bool x y).
Definition Qge_bool (x y : Q) : bool := Qle_bool y x.

(** The [for] loop of [_selectBestStackFrame], with its [break] *)
Fixpoint walk (self : NoseMachineReadableOutput) (traceback : list frame)
         (best : frame) (best_score : Q) : frame :=
  match traceback with
  | [] => best
  | fr :: rest =>
      let curr_score := _calcScore self fr in
      if Qgt_bool curr_score best_score then
        let best := fr in
        let best_score := curr_score in
        if Qge_bool best_score 1%Q then best
        else walk self rest best best_score
      else walk self rest best best_score
  end.

Definition _selectBestStackFrame (self : NoseMachineReadableOutput)
           (traceback : list frame) : result frame :=
  let best_score := 0%Q in
  best <- last_item traceback ;;
  Ok (walk self traceback best best_score).

(** *** The line emitter *)

Definition _format_testfname (self : NoseMachineReadableOutput) (fname : string)
  : string :=
  if startswith fname (basepath self)
  then slice_from (String.length (basepath self) + 1) fname
  else fname.

Definition _write_lines (self : NoseMachineReadableOutput)
           (etype fname : string) (lineno : Z) (lines : list string)
  : NoseMachineReadableOutput :=
  let fname := _format_testfname self fname in
  let prefix := fname ++ ":" ++ format_d lineno in
  let self :=
    match lines with
    | [] => self
    | l0 :: _ => writeln self (prefix ++ ": " ++ etype ++ ": " ++ l0)
    end in
  if Nat.ltb 1 (List.length lines) then
    let pad := mul " " (String.length etype + 1) in
    fold_left (fun st line => writeln st (prefix ++ ": " ++ pad ++ " " ++ line))
              (tl lines) self
  else self.

(** Re-joining a project-relative path with the root, in the words of
    the specification (the plugin has no such function): the root, the
    separator that was stripped, the relative path. *)
Definition rejoin (root rel : string) : string := root ++ "/" ++ rel.

(** [os.path.join(a, b)] of posixpath, for comparison with [rejoin] *)
Definition posixpath_join (a b : string) : string :=
  if startswith b "/" then b
  else match a with
       | EmptyString => b
       | _ => if String.eqb (slice_from (String.length a - 1) a) "/"
              then a ++ b else a ++ "/" ++ b
       end.

(** *** The doctest report parser *)

Definition doctest_value_pattern : Re.regex :=
  (Re.Lit ("File " ++ chr DQ) ;;
   Re.Group 1 (Re.Star (Re.CNot DQ)) ;;
   Re.Lit (chr DQ ++ ", line ") ;;
   Re.Group 2 (Re.Star Re.CDigit) ;;
   Re.Lit ", in " ;;
   Re.Group 3 (Re.Star (Re.CNot LF)) ;;
   Re.Lit (chr LF ++ "Failed example:" ++ chr LF) ;;
   Re.Star Re.CSpace ;;
   Re.Group 4 (Re.Star (Re.CNot LF)) ;;
   Re.Lit (chr LF) ;;
   Re.Alt
     (Re.Lit ("Expected:" ++ chr LF) ;;
      Re.Group 5 (Re.Star Re.CAny) ;;
      Re.Lit (chr LF ++ "Got") ;;
      Re.Alt
        (Re.Opt (Re.Lit ":") ;;
         Re.Lit (chr LF) ;;
         Re.Group 6 (Re.Star Re.CAny) ;;
         Re.Lit (chr LF))
        (Re.Lit " " ;; Re.Group 7 (Re.Lit "nothing")))
     (Re.Lit ("Exception raised:" ++ chr LF) ;;
      Re.Group 8 (Re.Star Re.CAny)))%re.

(** The separator of [re.split('-+', err_str)] *)
Definition dashes : Re.regex := Re.Plus (Re.CChar "-").

(** [lines.insert(0, lines.pop())] *)
Definition last_to_front (lines : list string) : result (list string) :=
  p <- pop lines ;; Ok (fst p :: snd p).

(** A group that is used as a string.  The four groups read this way are
    outside every alternative of the pattern and are never [None] after a
    match. *)
Definition as_str (v : option string) : result string :=
  match v with
  | Some s => Ok s
  | None => Raise TypeError
  end.

(** The body of the loop of [_format_doctests], up to its [yield] *)
Definition format_part (part : string) : result lineset :=
  match Re.search doctest_value_pattern part with
  | Some [fname; lineno; funname; example; expected; got; got_nothing; exc] =>
      fname <- as_str fname ;;
      lineno <- as_str lineno ;;
      lineno <- int lineno ;;
      if truthy exc then
        let etype := "error" in
        exc <- as_str exc ;;
        lines <- last_to_front (split LF (Textwrap.dedent (strip LF exc))) ;;
        Ok (mkLineset etype fname lineno lines)
      else if truthy got_nothing then
        let etype := "fail" in
        let lines := ["expected " ++ repr expected ++ " but got nothing"] in
        Ok (mkLineset etype fname lineno lines)
      else
        let etype := "fail" in
        let lines := ["expected " ++ repr expected ++ " but got " ++ repr got] in
        Ok (mkLineset etype fname lineno lines)
  | _ => Raise AttributeError
  end.

Fixpoint format_parts (parts : list string) : run lineset :=
  match parts with
  | [] => mkRun [] None
  | part :: rest =>
      match format_part part with
      | Raise e => mkRun [] (Some e)
      | Ok r => let t := format_parts rest in mkRun (r :: yielded t) (raised t)
      end
  end.

Definition _format_doctests (err_str : string) : run lineset :=
  let err_parts := Re.split dashes err_str in
  format_parts (tl err_parts).

(** *** The hooks *)

(** What [add_formatted] reads of [err = (exctype, value, tb)]:
    [str(value)], [traceback.extract_tb(tb)] and
    [traceback.format_exception_only(exctype, value)]. *)
Record exc_info : Type := mkExcInfo {
  value_str : string;
  fulltb : list frame;
  exception_only : list string
}.

Definition write_lineset (self : NoseMachineReadableOutput) (r : lineset)
  : NoseMachineReadableOutput :=
  _write_lines self (ls_etype r) (ls_fname r) (ls_lineno r) (ls_lines r).

(** The plugin after the call, and the exception that left it, if any *)
Definition add_formatted (self : NoseMachineReadableOutput) (etype : string)
           (err : exc_info) : NoseMachineReadableOutput * option exn :=
  if startswith (value_str err) "Failed doctest test" then
    let linesets := _format_doctests (value_str err) in
    (fold_left write_lineset (yielded linesets) self, raised linesets)
  else
    match _selectBestStackFrame self (fulltb err) with
    | Raise e => (self, Some e)
    | Ok fr =>
        let lines := map (strip LF) (exception_only err) in
        (_write_lines self etype (frame_fname fr) (frame_lineno fr) lines, None)
    end.

Definition addError (self : NoseMachineReadableOutput) (err : exc_info) :=
  add_formatted self "error" err.

Definition addFailure (self : NoseMachineReadableOutput) (err : exc_info) :=
  add_formatted self "fail" err.

(* ================================================================= *)
(** ** Sample inputs *)

Module Samples.

(** Each line followed by a newline *)
Fixpoint unlines (ls : list string) : string :=
  match ls with
  | [] => EmptyString
  | l :: ls' => l ++ String LF (unlines ls')
  end.

Definition divider : string := mul "-" 49.

Definition file_header (path line fn : string) : string :=
  "File " ++ chr DQ ++ path ++ chr DQ ++ ", line " ++ line ++ ", in " ++ fn.

Definition preamble : list string :=
  [ "Failed doctest test for foo";
    "  " ++ file_header "/foo.py" "1" "foo_fn" ].

Definition section_got_nothing : list string :=
  [ file_header "/foo.py" "5" "foo_fn";
    "Failed example:";
    "    foo_bar()";
    "Expected:";
    "    foo";
    "Got nothing" ].

Definition section_got_bar : list string :=
  [ file_header "/foo.py" "9" "foo_fn";
    "Failed example:";
    "    foo_fn()";
    "Expected:";
    "    foo";
    "Got:";
    "    bar" ].

Definition section_name_error : list string :=
  [ file_header "/foo.py" "10" "foo_fn";
    "Failed example:";
    "    print(bar)";
    "Exception raised:";
    "    Traceback (most recent call last):";
    "      ...";
    "    NameError: name 'bar' is not defined" ].

(** The report of the specification's parse scenario, every line ended
    by a newline. *)
Definition report : string :=
  unlines (preamble ++ [divider] ++ section_got_nothing
                    ++ [divider] ++ section_got_bar).

(** The same report when its last line has no newline after it *)
Definition report_unterminated : string :=
  join LF (preamble ++ [divider] ++ section_got_nothing
                    ++ [divider] ++ section_got_bar).

(** The report of the docstring of [_format_doctests], after
    [textwrap.dedent] *)
Definition docstring_report : string :=
  unlines ([""] ++ preamble ++ [""; divider] ++ section_got_nothing
                ++ [divider] ++ section_got_bar
                ++ [divider] ++ section_name_error).

(** The report of the specification's parse scenario with the values
    1 expected and -1 got: one divider line, one section. *)
Definition section_got_negative : list string :=
  [ file_header "/foo.py" "5" "foo_fn";
    "Failed example:";
    "    foo_fn()";
    "Expected:";
    "    1";
    "Got:";
    "    -1" ].

Definition report_negative : string :=
  unlines (preamble ++ [divider] ++ section_got_negative).

(** A section whose outcome is a raised exception: the header, the
    example on a line of its own after its indentation, and the text
    that follows [Exception raised:]. *)
Definition exception_section (path line fn indent src text : string) : string :=
  file_header path line fn
  ++ chr LF ++ "Failed example:" ++ chr LF ++ indent ++ src
  ++ chr LF ++ "Exception raised:" ++ chr LF ++ text.

(** The exception text of the specification's example, and the one of
    the docstring, indented as doctest prints it. *)
Definition name_error_text : string :=
  join LF [ "Traceback (most recent call last):";
            "  ...";
            "NameError: x" ].

Definition name_error_section : string :=
  chr LF ++ exception_section "/foo.py" "10" "foo_fn" "    " "print(bar)"
                              name_error_text.

Definition indented_text : string :=
  join LF [ "    Traceback (most recent call last):";
            "      ...";
            "    NameError: name 'bar' is not defined" ].

Definition indented_section : string :=
  chr LF ++ exception_section "/foo.py" "10" "foo_fn" "    " "print(bar)"
                              indented_text.

(** A plugin whose project root is [/proj], and three frames that
    score 0, 2/7 and 4/7 under it. *)
Definition plugin : NoseMachineReadableOutput := mkPlugin "/proj" [].

Definition f0 : frame :=
  mkFrame "/usr/lib/python/unittest/case.py" 857 "assertEqual" None.
Definition f1 : frame :=
  mkFrame "/usr/lib/python/helpers/testing.py" 12 "assert_same" None.
Definition f2 : frame :=
  mkFrame "/proj/pkg/checks.py" 40 "assert_valid" None.

End Samples.

(* ================================================================= *)
(** ** The layout of a doctest report *)

Module Layout.

(** The start of a section: the header, [Failed example:] and the
    example on a line of its own after its indentation. *)
Definition section_head (path line fn indent src : string) : string :=
  Samples.file_header path line fn
  ++ chr LF ++ "Failed example:" ++ chr LF ++ indent ++ src ++ chr LF.

(** A section whose example printed nothing: [Expected:], the expected
    block, [Got nothing], and what follows on the last line. *)
Definition got_nothing_section
           (path line fn indent src expected tail : string) : string :=
  section_head path line fn indent src
  ++ "Expected:" ++ chr LF ++ expected ++ chr LF ++ "Got nothing" ++ tail.

(** A section whose example printed something else: [Expected:], the
    expected block, [Got:] (or [Got]), the actual block and the newline
    that ends it. *)
Definition got_section
           (path line fn indent src expected : string) (colon : bool)
           (actual : string) : string :=
  section_head path line fn indent src
  ++ "Expected:" ++ chr LF ++ expected ++ chr LF ++ "Got"
  ++ (if colon then ":" else "") ++ chr LF ++ actual ++ chr LF.

(** Sections behind their dividers: a run of [S n] dashes before each *)
Fixpoint sections_text (secs : list (nat * string)) : string :=
  match secs with
  | [] => EmptyString
  | (n, sec) :: rest => mul "-" (S n) ++ sec ++ sections_text rest
  end.

(** A report: the preamble, then the sections behind their dividers *)
Definition report_of (preamble : string) (secs : list (nat * string)) : string :=
  preamble ++ sections_text secs.

(** The preamble of the samples, and reports of one section behind a
    divider of 49 dashes: the section of the specification's example, the
    one indented as doctest prints it, and one whose exception text has a
    minus sign in it. *)
Definition sample_preamble : string := Samples.unlines Samples.preamble.

Definition name_error_report : string :=
  report_of sample_preamble [(48, Samples.name_error_section)].

Definition indented_report : string :=
  report_of sample_preamble [(48, Samples.indented_section)].

Definition type_error_text : string :=
  join LF [ "Traceback (most recent call last):";
            "  ...";
            "TypeError: unsupported operand type(s) for -: 'int' and 'str'" ].

Definition type_error_section : string :=
  chr LF ++ Samples.exception_section "/foo.py" "10" "foo_fn" "    " "sub(1, 'a')"
                                      type_error_text.

Definition type_error_report : string :=
  report_of sample_preamble [(48, type_error_section)].

End Layout.

(* ================================================================= *)
(** * Properties *)

From Stdlib Require Import Lqa.

(** ** Strings *)

Lemma append_nil_r (s : string) : s ++ "" = s.
Proof. induction s as [|a s IH]; simpl; [reflexivity | now rewrite IH]. Qed.

Lemma append_assoc (a b c : string) : (a ++ b) ++ c = a ++ b ++ c.
Proof. induction a as [|x a IH]; simpl; [reflexivity | now rewrite IH]. Qed.

Lemma length_append (a b : string) :
  String.length (a ++ b) = String.length a + String.length b.
Proof. induction a as [|x a IH]; simpl; [reflexivity | now rewrite IH]. Qed.

Lemma prefix_iff (p s : string) :
  String.prefix p s = true <-> exists r, s = p ++ r.
Proof.
  revert s; induction p as [|a p IH]; intros s.
  - destruct s; simpl; split; eauto.
  - destruct s as [|b s]; simpl.
    + split; [discriminate | intros [r Hr]; discriminate].
    + destruct (ascii_dec a b) as [->|Hab].
      * rewrite IH. split; intros [r Hr]; exists r; congruence.
      * split; [discriminate | intros [r Hr]; congruence].
Qed.

Lemma startswith_iff (s p : string) :
  startswith s p = true <-> exists r, s = p ++ r.
Proof. apply prefix_iff. Qed.

Lemma startswith_app (p r : string) : startswith (p ++ r) p = true.
Proof. apply startswith_iff. now exists r. Qed.

Lemma slice_from_app (p r : string) : slice_from (String.length p) (p ++ r) = r.
Proof. induction p as [|a p IH]; simpl; [now destruct r | exact IH]. Qed.

Lemma slice_from_succ_app (p r : string) (c : ascii) :
  slice_from (String.length p + 1) (p ++ String c r) = r.
Proof.
  induction p as [|a p IH]; simpl; [now destruct r | exact IH].
Qed.

Lemma slice_from_all (p : string) : slice_from (String.length p + 1) p = "".
Proof. induction p as [|a p IH]; simpl; [reflexivity | exact IH]. Qed.

Lemma length_mul_chr (c : ascii) (n : nat) : String.length (mul (chr c) n) = n.
Proof. induction n as [|n IH]; simpl; [reflexivity | now rewrite IH]. Qed.

Lemma mem_mul_chr (c a : ascii) (n : nat) : mem a (mul (chr c) n) = true -> a = c.
Proof.
  induction n as [|n IH]; simpl; [discriminate|].
  destruct (Ascii.eqb_spec c a) as [->|Hne]; simpl; auto.
Qed.

(** [find] is non-negative exactly when the text occurs somewhere. *)
Lemma find_from_found_iff (s sub : string) (i : Z) :
  (0 <= i)%Z ->
  (find_from i s sub >= 0)%Z <-> exists a b, s = a ++ sub ++ b.
Proof.
  revert i; induction s as [|c s IH]; intros i Hi.
  - cbn [find_from]. destruct (String.prefix sub "") eqn:Hp.
    + apply prefix_iff in Hp as [r Hr]. split; [|lia].
      intros _. exists "", r. exact Hr.
    + split; [lia|]. intros (a & b & Hab).
      destruct a; [|discriminate]. simpl in Hab.
      assert (String.prefix sub "" = true) by (apply prefix_iff; now exists b).
      congruence.
  - cbn [find_from]. destruct (String.prefix sub (String c s)) eqn:Hp.
    + apply prefix_iff in Hp as [r Hr]. split; [|lia].
      intros _. exists "", r. exact Hr.
    + rewrite (IH (i + 1)%Z) by lia. split.
      * intros (a & b & ->). now exists (String c a), b.
      * intros (a & b & Hab). destruct a as [|x a]; simpl in Hab.
        -- assert (String.prefix sub (String c s) = true)
             by (apply prefix_iff; now exists b).
           congruence.
        -- injection Hab as _ ->. now exists a, b.
Qed.

Lemma find_found_iff (s sub : string) :
  (find s sub >=? 0)%Z = true <-> exists a b, s = a ++ sub ++ b.
Proof.
  unfold find. rewrite Z.geb_le, <- (find_from_found_iff s sub 0%Z) by lia. lia.
Qed.

(** ** The line emitter *)

Lemma stream_writeln_all (f : string -> string) (ls : list string)
      (self : NoseMachineReadableOutput) :
  stream (fold_left (fun st line => writeln st (f line)) ls self)
  = (stream self ++ map f ls)%list.
Proof.
  revert self; induction ls as [|l ls IH]; intros self; simpl.
  - now rewrite app_nil_r.
  - rewrite IH. simpl. now rewrite <- app_assoc.
Qed.

Lemma basepath_writeln_all (f : string -> string) (ls : list string)
      (self : NoseMachineReadableOutput) :
  basepath (fold_left (fun st line => writeln st (f line)) ls self)
  = basepath self.
Proof.
  revert self; induction ls as [|l ls IH]; intros self; simpl;
    [reflexivity | now rewrite IH].
Qed.

Lemma basepath_write_lines (self : NoseMachineReadableOutput)
      (etype fname : string) (lineno : Z) (lines : list string) :
  basepath (_write_lines self etype fname lineno lines) = basepath self.
Proof.
  unfold _write_lines.
  destruct (Nat.ltb 1 (List.length lines)).
  - rewrite basepath_writeln_all. now destruct lines.
  - now destruct lines.
Qed.

(** C9. For every kind, file and line number, the emitter applied to an
    empty sequence of message lines writes no line: the plugin, and with
    it the output stream, is left as it was. *)
Theorem write_lines_empty_no_output (self : NoseMachineReadableOutput)
        (etype fname : string) (lineno : Z) :
  _write_lines self etype fname lineno [] = self /\
  stream (_write_lines self etype fname lineno []) = stream self.
Proof. split; reflexivity. Qed.

(** C8. For every record with at least one message line, the first line
    written is [<file>:<line>: <kind>: <message_lines[0]>] and each later
    message line is written as [<file>:<line>: <padding> <line>], in
    order, where the padding is made of spaces only and has one character
    more than the kind; [<file>] is the file name as [_format_testfname]
    gives it and [<line>] the line number in decimal. *)
Theorem write_lines_layout (self : NoseMachineReadableOutput)
        (etype fname : string) (lineno : Z) (l0 : string) (rest : list string) :
  let file := _format_testfname self fname in
  let loc := file ++ ":" ++ format_d lineno in
  exists padding : string,
    String.length padding = String.length etype + 1 /\
    (forall c, mem c padding = true -> c = " "%char) /\
    stream (_write_lines self etype fname lineno (l0 :: rest))
    = List.app (stream self)
        ((loc ++ ": " ++ etype ++ ": " ++ l0)
           :: map (fun line => loc ++ ": " ++ padding ++ " " ++ line) rest).
Proof.
  intros file loc.
  exists (mul " " (String.length etype + 1)).
  split; [apply (length_mul_chr " "%char)|].
  split; [intros c; apply (mem_mul_chr " "%char)|].
  unfold _write_lines. fold file. fold loc.
  destruct rest as [|l1 rest'].
  - reflexivity.
  - change (Nat.ltb 1 (List.length (l0 :: l1 :: rest'))) with true.
    cbv iota. cbn [tl].
    rewrite (stream_writeln_all
               (fun line => loc ++ ": " ++ mul " " (String.length etype + 1) ++ " " ++ line)).
    cbn [writeln stream]. now rewrite <- app_assoc.
Qed.

(** C6, amended. A file path made of the project root, a path separator
    and a remainder is written as that remainder, and the root re-joined
    with it is the path again; a path that does not start with the root,
    as a string, is left as it is, absolute. *)
Theorem format_testfname_round_trip (self : NoseMachineReadableOutput) :
  (forall rel : string,
      let fname := basepath self ++ "/" ++ rel in
      _format_testfname self fname = rel /\
      rejoin (basepath self) (_format_testfname self fname) = fname) /\
  (forall fname : string,
      startswith fname (basepath self) = false ->
      _format_testfname self fname = fname).
Proof.
  split.
  - intros rel fname. assert (H : _format_testfname self fname = rel).
    { unfold _format_testfname, fname. rewrite startswith_app.
      apply (slice_from_succ_app (basepath self) rel "/"%char). }
    split; [exact H | now rewrite H].
  - intros fname H. unfold _format_testfname. now rewrite H.
Qed.

Lemma format_testfname_round_trip_witness :
  let self := mkPlugin "/proj" [] in
  startswith "/usr/lib/x.py" (basepath self) = false /\
  _format_testfname self "/usr/lib/x.py" = "/usr/lib/x.py".
Proof.
  intros self. split; [reflexivity|].
  apply (proj2 (format_testfname_round_trip self)). reflexivity.
Defined.

(** An error with two lines of detail, for a file of the project. *)
Lemma write_lines_example :
  stream (_write_lines Samples.plugin "error" "/proj/tests/test_a.py" 12
                       ["NameError: x"; "Traceback"; "  ..."])
  = [ "tests/test_a.py:12: error: NameError: x";
      "tests/test_a.py:12:        Traceback";
      "tests/test_a.py:12:          ..." ].
Proof. reflexivity. Qed.

(** C10. For every file path that starts with the project root as a
    string, the emitter removes [len(root) + 1] leading characters
    whatever the character after the root is: the root followed by any
    character [c] and a remainder gives the remainder, the root itself
    gives the empty string, and with the root [/proj] the path
    [/project/x.py] gives [ct/x.py], from which re-joining with the root,
    by hand or with [os.path.join], does not give the path back. *)
Theorem format_testfname_no_separator_check :
  (forall (self : NoseMachineReadableOutput) (fname : string),
      startswith fname (basepath self) = true ->
      _format_testfname self fname
      = slice_from (String.length (basepath self) + 1) fname) /\
  (forall (self : NoseMachineReadableOutput) (c : ascii) (rest : string),
      _format_testfname self (basepath self ++ String c rest) = rest) /\
  (forall self : NoseMachineReadableOutput,
      _format_testfname self (basepath self) = "") /\
  _format_testfname (mkPlugin "/proj" []) "/project/x.py" = "ct/x.py" /\
  rejoin "/proj" (_format_testfname (mkPlugin "/proj" []) "/project/x.py")
  <> "/project/x.py" /\
  posixpath_join "/proj" (_format_testfname (mkPlugin "/proj" []) "/project/x.py")
  <> "/project/x.py".
Proof.
  split; [|split; [|split; [|split; [|split]]]].
  - intros self fname H. unfold _format_testfname. now rewrite H.
  - intros self c rest. unfold _format_testfname.
    rewrite startswith_app. apply slice_from_succ_app.
  - intros self. unfold _format_testfname.
    rewrite <- (append_nil_r (basepath self)) at 1.
    rewrite startswith_app. apply slice_from_all.
  - reflexivity.
  - discriminate.
  - discriminate.
Qed.

Lemma format_testfname_no_separator_check_witness :
  let self := mkPlugin "/proj" [] in
  startswith "/project/x.py" (basepath self) = true /\
  _format_testfname self "/project/x.py"
  = slice_from (String.length (basepath self) + 1) "/project/x.py".
Proof.
  intros self. split; [reflexivity|].
  apply (proj1 format_testfname_no_separator_check self). reflexivity.
Defined.

(** Where [os.path.join] adds the separator, it is [rejoin]. *)
Lemma posixpath_join_rejoin (root rel : string) (a : ascii) :
  startswith rel "/" = false ->
  String.eqb (slice_from (String.length (root ++ chr a) - 1) (root ++ chr a)) "/" = false ->
  posixpath_join (root ++ chr a) rel = rejoin (root ++ chr a) rel.
Proof.
  intros Hrel Hroot. unfold posixpath_join, rejoin. rewrite Hrel.
  destruct (root ++ chr a) eqn:E.
  - destruct root; discriminate.
  - now rewrite Hroot.
Qed.

(** ** The frame selector *)

Lemma prefix_chr (a b : ascii) (s : string) :
  String.prefix (String a "") (String b s) = Ascii.eqb a b.
Proof.
  cbn [String.prefix].
  destruct (ascii_dec a b) as [->|Hne].
  - rewrite Ascii.eqb_refl. now destruct s.
  - symmetry. now apply Ascii.eqb_neq.
Qed.

Lemma rfind_from_absent (s : string) (i found : Z) :
  mem "/" s = false -> rfind_from i s "/" found = found.
Proof.
  revert i; induction s as [|a s IH]; intros i H; [reflexivity|].
  simpl in H. apply orb_false_iff in H as [Ha Hs].
  cbn [rfind_from]. rewrite prefix_chr, Ascii.eqb_sym, Ha. now apply IH.
Qed.

Lemma rfind_from_last_slash (dir name : string) (i found : Z) :
  mem "/" name = false ->
  rfind_from i (dir ++ "/" ++ name) "/" found = (i + Z.of_nat (String.length dir))%Z.
Proof.
  intros Hname. revert i found; induction dir as [|a dir IH]; intros i found.
  - cbn [append rfind_from]. rewrite prefix_chr.
    rewrite Ascii.eqb_refl, rfind_from_absent by assumption. simpl; lia.
  - cbn [append rfind_from]. rewrite IH. cbn [String.length]. lia.
Qed.

(** The base name is what follows the last separator. *)
Lemma basename_after_last_slash (dir name : string) :
  mem "/" name = false -> basename (dir ++ "/" ++ name) = name.
Proof.
  intros H. unfold basename, rfind. rewrite rfind_from_last_slash by assumption.
  replace (Z.to_nat (0 + Z.of_nat (String.length dir) + 1))
    with (String.length dir + 1) by lia.
  apply (slice_from_succ_app dir name "/"%char).
Qed.

Lemma basename_no_slash (name : string) :
  mem "/" name = false -> basename name = name.
Proof.
  intros H. unfold basename, rfind. now rewrite rfind_from_absent.
Qed.

Lemma Qgt_bool_iff (x y : Q) : Qgt_bool x y = true <-> (y < x)%Q.
Proof.
  unfold Qgt_bool. rewrite negb_true_iff. split; intros H.
  - apply Qnot_le_lt. intros Hle. apply Qle_bool_iff in Hle. congruence.
  - destruct (Qle_bool x y) eqn:E; [|reflexivity].
    apply Qle_bool_iff in E. lra.
Qed.

Lemma Qgt_bool_false_iff (x y : Q) : Qgt_bool x y = false <-> (x <= y)%Q.
Proof.
  unfold Qgt_bool. rewrite negb_false_iff. apply Qle_bool_iff.
Qed.

Lemma Qge_bool_iff (x y : Q) : Qge_bool x y = true <-> (y <= x)%Q.
Proof. apply Qle_bool_iff. Qed.

(** The score is one of the eight values [k/7], with the weights 4, 2
    and 1 of the three tests. *)
Lemma calcScore_weights (self : NoseMachineReadableOutput) (fr : frame) :
  (_calcScore self fr ==
   inject_Z ((if startswith (frame_fname fr) (basepath self) then 4 else 0)
             + (if (find (basename (frame_fname fr)) "test" >=? 0)%Z then 2 else 0)
             + (if startswith (frame_funname fr) "assert" then 0 else 1)) / 7)%Q.
Proof.
  unfold _calcScore.
  destruct (startswith (frame_fname fr) (basepath self));
    destruct (find (basename (frame_fname fr)) "test" >=? 0)%Z;
    destruct (startswith (frame_funname fr) "assert"); reflexivity.
Qed.

Lemma calcScore_range (self : NoseMachineReadableOutput) (fr : frame) :
  (0 <= _calcScore self fr <= 1)%Q.
Proof.
  unfold _calcScore.
  destruct (startswith (frame_fname fr) (basepath self));
    destruct (find (basename (frame_fname fr)) "test" >=? 0)%Z;
    destruct (startswith (frame_funname fr) "assert");
    split; discriminate.
Qed.

(** C3. For every frame and project root, the score is the sum of the
    weights that apply, divided by 7: 4 when the file path starts with the
    root, 2 when the base name of the file has the text [test] in it, 1
    when the function name does not start with [assert]; it lies between
    0 and 1. *)
Theorem calcScore_is_weighted_sum (self : NoseMachineReadableOutput) (fr : frame) :
  exists in_project in_test helper : bool,
    (in_project = true <-> exists r, frame_fname fr = basepath self ++ r) /\
    (in_test = true <-> exists a b, basename (frame_fname fr) = a ++ "test" ++ b) /\
    (helper = true <-> exists r, frame_funname fr = "assert" ++ r) /\
    (_calcScore self fr ==
     inject_Z ((if in_project then 4 else 0) + (if in_test then 2 else 0)
               + (if helper then 0 else 1)) / 7)%Q /\
    (0 <= _calcScore self fr <= 1)%Q.
Proof.
  exists (startswith (frame_fname fr) (basepath self)),
         (find (basename (frame_fname fr)) "test" >=? 0)%Z,
         (startswith (frame_funname fr) "assert").
  split; [apply startswith_iff|].
  split; [apply find_found_iff|].
  split; [apply startswith_iff|].
  split; [apply calcScore_weights | apply calcScore_range].
Qed.

(** The loop either keeps the best it started with, every frame scoring
    no more than the running score, or ends on the first frame of the
    highest score. *)
Lemma walk_spec (self : NoseMachineReadableOutput) (traceback : list frame) :
  forall (best : frame) (best_score : Q),
    (walk self traceback best best_score = best /\
     forall g, In g traceback -> (_calcScore self g <= best_score)%Q)
    \/
    (exists l1 f l2,
        traceback = (l1 ++ f :: l2)%list /\
        walk self traceback best best_score = f /\
        (best_score < _calcScore self f)%Q /\
        (forall g, In g l1 -> (_calcScore self g < _calcScore self f)%Q) /\
        (forall g, In g l2 -> (_calcScore self g <= _calcScore self f)%Q)).
Proof.
  induction traceback as [|fr rest IH]; intros best best_score.
  - left. split; [reflexivity | intros g []].
  - cbn [walk]. cbv zeta.
    destruct (Qgt_bool (_calcScore self fr) best_score) eqn:Hgt.
    + apply Qgt_bool_iff in Hgt.
      destruct (Qge_bool (_calcScore self fr) 1) eqn:Hge.
      * apply Qge_bool_iff in Hge. right. exists [], fr, rest.
        repeat split; auto; [intros g [] |].
        intros g _. pose proof (calcScore_range self g). lra.
      * destruct (IH fr (_calcScore self fr))
          as [[Hw Hall] | (l1 & f & l2 & -> & Hw & Hlt & Hl1 & Hl2)].
        -- right. exists [], fr, rest.
           repeat split; auto. intros g [].
        -- right. exists (fr :: l1), f, l2.
           repeat split; auto; [lra|].
           intros g [<- | Hg]; auto.
    + apply Qgt_bool_false_iff in Hgt.
      destruct (IH best best_score)
        as [[Hw Hall] | (l1 & f & l2 & -> & Hw & Hlt & Hl1 & Hl2)].
      * left. split; [exact Hw|]. intros g [<- | Hg]; auto.
      * right. exists (fr :: l1), f, l2.
        repeat split; auto.
        intros g [<- | Hg]; [lra | auto].
Qed.

(** A frame of full score ends the loop, whatever follows it. *)
Lemma walk_stops_at_full_score (self : NoseMachineReadableOutput)
      (f : frame) (l2 : list frame) :
  (1 <= _calcScore self f)%Q ->
  forall (l1 : list frame) (best : frame) (best_score : Q),
    (best_score < 1)%Q ->
    (forall g, In g l1 -> (_calcScore self g < 1)%Q) ->
    walk self (l1 ++ f :: l2) best best_score = f.
Proof.
  intros Hf. induction l1 as [|fr l1 IH]; intros best best_score Hbs Hl1.
  - cbn [app walk]. cbv zeta.
    assert (Hgt : Qgt_bool (_calcScore self f) best_score = true)
      by (apply Qgt_bool_iff; lra).
    assert (Hge : Qge_bool (_calcScore self f) 1 = true)
      by (now apply Qge_bool_iff).
    now rewrite Hgt, Hge.
  - cbn [app walk]. cbv zeta.
    assert (Hfr : (_calcScore self fr < 1)%Q) by (apply Hl1; now left).
    assert (Hge : Qge_bool (_calcScore self fr) 1 = false).
    { destruct (Qge_bool (_calcScore self fr) 1) eqn:E; [|reflexivity].
      apply Qge_bool_iff in E. lra. }
    rewrite Hge.
    destruct (Qgt_bool (_calcScore self fr) best_score);
      apply IH; auto; intros g Hg; apply Hl1; now right.
Qed.

Lemma last_item_nonempty {A : Type} (l : list A) :
  l <> [] -> exists x, last_item l = Ok x.
Proof.
  induction l as [|a l IH]; intros H; [now elim H|].
  destruct l as [|b l]; [now exists a|].
  apply IH. discriminate.
Qed.

(** Against C1 as stated.  The selector on frames scoring 0, 2/7 and 4/7:
    the walk goes past the frame of score 2/7 and does not return it. *)
Lemma selectBestStackFrame_first_threshold_refuted :
  (_calcScore Samples.plugin Samples.f0 == 0)%Q /\
  (_calcScore Samples.plugin Samples.f1 == 2 # 7)%Q /\
  (_calcScore Samples.plugin Samples.f2 == 4 # 7)%Q /\
  _selectBestStackFrame Samples.plugin [Samples.f0; Samples.f1; Samples.f2]
  <> Ok Samples.f1.
Proof.
  repeat split; try reflexivity.
  vm_compute. discriminate.
Qed.

(** C1, amended. For every non-empty sequence of frames the selector
    returns a frame: the last one when no frame scores above 0, and
    otherwise the first frame whose score is the highest of the sequence
    (the running best starts as the last frame with score 0 and is
    replaced only by a strictly higher score).  The walk stops early only
    at a frame of score 1 or more, that is all three criteria matched:
    such a frame is returned whatever follows it.  For frames
    [f0, f1, f2] scoring 0, 2/7 and 4/7 the selector returns [f2]. *)
Theorem selectBestStackFrame_first_highest :
  (forall (self : NoseMachineReadableOutput) (traceback : list frame),
      traceback <> [] ->
      exists best last,
        _selectBestStackFrame self traceback = Ok best /\
        last_item traceback = Ok last /\
        ((best = last /\
          forall g, In g traceback -> (_calcScore self g == 0)%Q)
         \/
         (exists l1 l2,
             traceback = (l1 ++ best :: l2)%list /\
             (0 < _calcScore self best)%Q /\
             (forall g, In g l1 -> (_calcScore self g < _calcScore self best)%Q) /\
             (forall g, In g l2 -> (_calcScore self g <= _calcScore self best)%Q))))
  /\
  (forall (self : NoseMachineReadableOutput) (l1 l2 : list frame) (f : frame),
      (forall g, In g l1 -> (_calcScore self g < 1)%Q) ->
      (1 <= _calcScore self f)%Q ->
      _selectBestStackFrame self (l1 ++ f :: l2) = Ok f)
  /\
  ((_calcScore Samples.plugin Samples.f0 == 0)%Q /\
   (_calcScore Samples.plugin Samples.f1 == 2 # 7)%Q /\
   (_calcScore Samples.plugin Samples.f2 == 4 # 7)%Q /\
   _selectBestStackFrame Samples.plugin [Samples.f0; Samples.f1; Samples.f2]
   = Ok Samples.f2).
Proof.
  split; [|split].
  - intros self traceback Hne.
    destruct (last_item_nonempty traceback Hne) as [last Hlast].
    unfold _selectBestStackFrame. rewrite Hlast. cbn [bind].
    exists (walk self traceback last 0%Q), last.
    split; [reflexivity|]. split; [reflexivity|].
    destruct (walk_spec self traceback last 0%Q)
      as [[Hw Hall] | (l1 & f & l2 & -> & Hw & Hlt & Hl1 & Hl2)].
    + left. split; [exact Hw|]. intros g Hg.
      pose proof (calcScore_range self g). pose proof (Hall g Hg). lra.
    + right. rewrite Hw. exists l1, l2. repeat split; auto.
  - intros self l1 l2 f Hl1 Hf.
    unfold _selectBestStackFrame.
    destruct (last_item_nonempty (l1 ++ f :: l2)%list) as [last Hlast].
    { now destruct l1. }
    rewrite Hlast. cbn [bind]. f_equal.
    apply walk_stops_at_full_score; auto. reflexivity.
  - repeat split; reflexivity.
Qed.

Lemma selectBestStackFrame_first_highest_witness :
  [Samples.f0; Samples.f1; Samples.f2] <> [] /\
  exists best last,
    _selectBestStackFrame Samples.plugin [Samples.f0; Samples.f1; Samples.f2]
    = Ok best /\
    last_item [Samples.f0; Samples.f1; Samples.f2] = Ok last /\
    ((best = last /\
      forall g, In g [Samples.f0; Samples.f1; Samples.f2] ->
                (_calcScore Samples.plugin g == 0)%Q)
     \/
     (exists l1 l2,
         [Samples.f0; Samples.f1; Samples.f2] = (l1 ++ best :: l2)%list /\
         (0 < _calcScore Samples.plugin best)%Q /\
         (forall g, In g l1 ->
                    (_calcScore Samples.plugin g < _calcScore Samples.plugin best)%Q) /\
         (forall g, In g l2 ->
                    (_calcScore Samples.plugin g <= _calcScore Samples.plugin best)%Q))).
Proof.
  split; [discriminate|].
  apply (proj1 selectBestStackFrame_first_highest Samples.plugin). discriminate.
Defined.

(** ** The regular expression matcher *)

Lemma strip_prefix_app (p s : string) : Re.strip_prefix p (p ++ s) = Some s.
Proof.
  induction p as [|a p IH]; simpl; [now destruct s|].
  now rewrite Ascii.eqb_refl.
Qed.

Lemma strip_prefix_iff (p s r : string) :
  Re.strip_prefix p s = Some r <-> s = p ++ r.
Proof.
  split.
  - revert s; induction p as [|a p IH]; intros s H.
    + destruct s; simpl in H; now inversion H.
    + destruct s as [|b s]; simpl in H; [discriminate|].
      destruct (Ascii.eqb_spec a b) as [->|]; [|discriminate].
      simpl. f_equal. now apply IH.
  - intros ->. apply strip_prefix_app.
Qed.

Lemma consumed_app (a b : string) : Re.consumed (a ++ b) b = a.
Proof.
  unfold Re.consumed. rewrite length_append.
  replace (String.length a + String.length b - String.length b)
    with (String.length a) by lia.
  induction a as [|x a IH]; simpl.
  - now destruct b.
  - now rewrite IH.
Qed.

Lemma all_in_not_mem (c : ascii) (s : string) :
  Re.all_in (Re.CNot c) s = negb (mem c s).
Proof.
  induction s as [|a s IH]; simpl; [reflexivity|].
  rewrite IH. now destruct (Ascii.eqb a c).
Qed.

(** A greedy class that runs over [a] and cannot go on lets the rest of
    the pattern start right after [a], when the rest matches there. *)
Lemma star_run {R : Type} (cl : Re.cclass) (a rest : string)
      (k : string -> option R) (r : R) :
  Re.all_in cl a = true ->
  Re.stops cl rest = true ->
  k rest = Some r ->
  Re.star cl (a ++ rest) k = Some r.
Proof.
  intros Ha Hstop Hk. induction a as [|x a IH].
  - simpl. destruct rest as [|c rest]; [exact Hk|].
    simpl in Hstop. apply negb_true_iff in Hstop.
    cbn [Re.star]. now rewrite Hstop.
  - simpl in Ha. apply andb_true_iff in Ha as [Hx Ha].
    cbn [append Re.star]. rewrite Hx, (IH Ha). reflexivity.
Qed.

(** When what follows never fails, a greedy class takes all it can. *)
Lemma star_total {R : Type} (cl : Re.cclass) (s : string) (f : string -> R) :
  Re.star cl s (fun s' => Some (f s')) = Some (f (Re.skip_class cl s)).
Proof.
  induction s as [|a s IH]; [reflexivity|].
  cbn [Re.star Re.skip_class]. rewrite IH. now destruct (Re.in_class cl a).
Qed.

Lemma skip_class_any (s : string) : Re.skip_class Re.CAny s = "".
Proof. induction s as [|a s IH]; [reflexivity | exact IH]. Qed.

Lemma skip_class_chr (c : ascii) (s : string) :
  Re.skip_class (Re.CChar c) s = lstrip c s.
Proof.
  induction s as [|a s IH]; [reflexivity|].
  cbn [Re.skip_class lstrip Re.in_class]. now rewrite IH.
Qed.

(** ** The doctest report parser on the sample reports *)

(** The report of the docstring of [_format_doctests] gives the three
    tuples the docstring expects. *)
Lemma format_doctests_docstring :
  _format_doctests Samples.docstring_report
  = mkRun
      [ mkLineset "fail" "/foo.py" 5 ["expected '    foo' but got nothing"];
        mkLineset "fail" "/foo.py" 9 ["expected '    foo' but got '    bar'"];
        mkLineset "error" "/foo.py" 10
                  [ "NameError: name 'bar' is not defined";
                    "Traceback (most recent call last):";
                    "  ..." ] ]
      None.
Proof. vm_compute. reflexivity. Qed.

(** Against C2 as stated.  On the sample report the parser does not give
    the two records with the values quoted as ['foo'] and ['bar'], whether
    the last line of the report is ended by a newline or not. *)
Lemma format_doctests_sample_not_bare_values :
  _format_doctests Samples.report
  <> mkRun
       [ mkLineset "fail" "/foo.py" 5 ["expected 'foo' but got nothing"];
         mkLineset "fail" "/foo.py" 9 ["expected 'foo' but got 'bar'"] ]
       None
  /\
  _format_doctests Samples.report_unterminated
  <> mkRun
       [ mkLineset "fail" "/foo.py" 5 ["expected 'foo' but got nothing"];
         mkLineset "fail" "/foo.py" 9 ["expected 'foo' but got 'bar'"] ]
       None.
Proof. split; vm_compute; discriminate. Qed.

(** C2, amended. On the sample report, every line of it ended by a
    newline, the parser yields exactly two records and ends normally:
    [(fail, /foo.py, 5, ["expected '    foo' but got nothing"])] and
    [(fail, /foo.py, 9, ["expected '    foo' but got '    bar'"])]; the
    expected and actual blocks are quoted with [repr], with the
    indentation they have in the report. *)
Theorem format_doctests_sample :
  _format_doctests Samples.report
  = mkRun
      [ mkLineset "fail" "/foo.py" 5 ["expected '    foo' but got nothing"];
        mkLineset "fail" "/foo.py" 9 ["expected '    foo' but got '    bar'"] ]
      None
  /\
  "expected '    foo' but got nothing"
  = "expected " ++ repr (Some "    foo") ++ " but got nothing"
  /\
  "expected '    foo' but got '    bar'"
  = "expected " ++ repr (Some "    foo") ++ " but got " ++ repr (Some "    bar").
Proof. repeat split; vm_compute; reflexivity. Qed.

(** When the last line of the sample report has no newline after it, the
    second section does not match and the parser raises after the first
    record. *)
Lemma format_doctests_sample_unterminated :
  _format_doctests Samples.report_unterminated
  = mkRun
      [ mkLineset "fail" "/foo.py" 5 ["expected '    foo' but got nothing"] ]
      (Some AttributeError).
Proof. vm_compute. reflexivity. Qed.

(** C4, at a report with one divider line and one section whose actual
    value is [-1]: the text is cut in three, at the divider and at the
    minus sign, the second piece does not match, and the parser raises
    without a record. *)
Theorem format_doctests_cuts_at_minus_sign :
  List.length (Re.split dashes Samples.report_negative) = 3 /\
  _format_doctests Samples.report_negative = mkRun [] (Some AttributeError).
Proof. split; vm_compute; reflexivity. Qed.

(** ** [re.split('-+', s)] cuts at every run of dashes *)

Lemma match_at_dashes_dash (b : string) :
  Re.match_at dashes (String "-" b) = Some ([], lstrip "-" b).
Proof.
  unfold Re.match_at, dashes. cbn [Re.rmatch Re.ngroups repeat Re.in_class].
  rewrite Ascii.eqb_refl.
  etransitivity;
    [exact (star_total (Re.CChar "-") b (fun s' => (@nil (option string), s')))|].
  now rewrite skip_class_chr.
Qed.

Lemma match_at_dashes_other (c : ascii) (b : string) :
  Ascii.eqb c "-" = false -> Re.match_at dashes (String c b) = None.
Proof.
  intros H. unfold Re.match_at, dashes. cbn [Re.rmatch Re.in_class].
  now rewrite H.
Qed.

Lemma length_lstrip_le (c : ascii) (s : string) :
  String.length (lstrip c s) <= String.length s.
Proof.
  induction s as [|a s IH]; simpl; [lia|].
  destruct (Ascii.eqb a c); simpl; lia.
Qed.

Lemma slice_from_lstrip (c : ascii) (s : string) :
  slice_from (String.length s - String.length (lstrip c s)) s = lstrip c s.
Proof.
  induction s as [|a s IH]; [reflexivity|].
  cbn [lstrip]. destruct (Ascii.eqb a c).
  - pose proof (length_lstrip_le c s).
    cbn [String.length]. rewrite Nat.sub_succ_l by assumption.
    cbn [slice_from]. exact IH.
  - now rewrite Nat.sub_diag.
Qed.

Lemma split_from_skip (r : Re.regex) (n : nat) :
  forall (s cur : string),
    n <= String.length s ->
    Re.split_from r s n cur = Re.split_from r (slice_from n s) 0 cur.
Proof.
  induction n as [|n IH]; intros s cur Hn.
  - now destruct s.
  - destruct s as [|a s]; simpl in Hn; [lia|].
    cbn [Re.split_from slice_from]. apply IH. lia.
Qed.

Lemma split_from_dash (b cur : string) :
  Re.split_from dashes (String "-" b) 0 cur
  = cur :: Re.split_from dashes (lstrip "-" b) 0 "".
Proof.
  pose proof (length_lstrip_le "-" b) as Hle.
  cbn [Re.split_from]. rewrite match_at_dashes_dash.
  cbn [String.length]. rewrite Nat.sub_succ_l by assumption.
  f_equal. rewrite split_from_skip by lia. now rewrite slice_from_lstrip.
Qed.

Lemma split_from_no_dash (a : string) :
  mem "-" a = false ->
  forall s cur : string,
    Re.split_from dashes (a ++ s) 0 cur = Re.split_from dashes s 0 (cur ++ a).
Proof.
  induction a as [|c a IH]; intros Ha s cur.
  - now rewrite append_nil_r.
  - simpl in Ha. apply orb_false_iff in Ha as [Hc Ha].
    cbn [append Re.split_from]. rewrite (match_at_dashes_other c _ Hc).
    rewrite (IH Ha). unfold chr. rewrite append_assoc. reflexivity.
Qed.

(** A text without a dash is one piece. *)
Lemma split_dashes_whole (a : string) :
  mem "-" a = false -> Re.split dashes a = [a].
Proof.
  intros Ha. unfold Re.split.
  rewrite <- (append_nil_r a) at 1. now rewrite split_from_no_dash.
Qed.

(** The first dash of a text ends the first piece, wherever it stands;
    the run of dashes it starts is dropped and the rest is split in the
    same way. *)
Lemma split_dashes_cut (a b : string) :
  mem "-" a = false ->
  Re.split dashes (a ++ String "-" b) = a :: Re.split dashes (lstrip "-" b).
Proof.
  intros Ha. unfold Re.split.
  rewrite split_from_no_dash by assumption. apply split_from_dash.
Qed.

(** ** How the pattern runs over a section *)

Lemma leads_lit (l s s' : string) (g : Re.groups) :
  Re.strip_prefix l s = Some s' -> Re.leads (Re.Lit l) s g s' g.
Proof. intros H R k x Hk. cbn [Re.rmatch]. now rewrite H. Qed.

Lemma leads_star (cl : Re.cclass) (a rest : string) (g : Re.groups) :
  Re.all_in cl a = true ->
  Re.stops cl rest = true ->
  Re.leads (Re.Star cl) (a ++ rest) g rest g.
Proof.
  intros Ha Hstop R k x Hk. cbn [Re.rmatch].
  now apply star_run.
Qed.

Lemma leads_star_all (cl : Re.cclass) (s : string) (g : Re.groups) :
  Re.all_in cl s = true -> Re.leads (Re.Star cl) s g "" g.
Proof.
  intros Hs. rewrite <- (append_nil_r s) at 1. now apply leads_star.
Qed.

Lemma leads_seq (r1 r2 : Re.regex) (s s1 s2 : string) (g g1 g2 : Re.groups) :
  Re.leads r1 s g s1 g1 ->
  Re.leads r2 s1 g1 s2 g2 ->
  Re.leads (Re.Seq r1 r2) s g s2 g2.
Proof.
  intros H1 H2 R k x Hk. cbn [Re.rmatch].
  apply H1. now apply H2.
Qed.

Lemma leads_group (i : nat) (r : Re.regex) (s s' : string) (g g' : Re.groups) :
  Re.leads r s g s' g' ->
  Re.leads (Re.Group i r) s g s' (Re.set_group i (Re.consumed s s') g').
Proof.
  intros H R k x Hk. cbn [Re.rmatch].
  now apply (H R (fun s1 g1 => k s1 (Re.set_group i (Re.consumed s s1) g1))).
Qed.

Lemma leads_alt_left (r1 r2 : Re.regex) (s s' : string) (g g' : Re.groups) :
  Re.leads r1 s g s' g' -> Re.leads (Re.Alt r1 r2) s g s' g'.
Proof.
  intros H R k x Hk. cbn [Re.rmatch]. now rewrite (H R k x Hk).
Qed.

Lemma leads_alt_right (r1 r2 : Re.regex) (s s' : string) (g g' : Re.groups) :
  Re.fails r1 s g ->
  Re.leads r2 s g s' g' -> Re.leads (Re.Alt r1 r2) s g s' g'.
Proof.
  intros Hf H R k x Hk. cbn [Re.rmatch]. rewrite (Hf R k). now apply H.
Qed.

Lemma leads_groups_eq (r : Re.regex) (s s' : string) (g g1 g2 : Re.groups) :
  Re.leads r s g s' g1 -> g1 = g2 -> Re.leads r s g s' g2.
Proof. now intros H <-. Qed.

Lemma fails_seq_lit (l : string) (r : Re.regex) (s : string) (g : Re.groups) :
  Re.strip_prefix l s = None -> Re.fails (Re.Seq (Re.Lit l) r) s g.
Proof. intros H R k. cbn [Re.rmatch]. now rewrite H. Qed.

Lemma leads_match_at (r : Re.regex) (s s' : string) (g' : Re.groups) :
  Re.leads r s (repeat None (Re.ngroups r)) s' g' ->
  Re.match_at r s = Some (g', s').
Proof. intros H. unfold Re.match_at. now apply H. Qed.

Lemma search_here (r : Re.regex) (s s' : string) (g : Re.groups) :
  Re.match_at r s = Some (g, s') -> Re.search r s = Some g.
Proof. intros H. destruct s; cbn [Re.search]; now rewrite H. Qed.

Lemma search_later (r : Re.regex) (c : ascii) (s : string) :
  Re.match_at r (String c s) = None ->
  Re.search r (String c s) = Re.search r s.
Proof. intros H. cbn [Re.search]. now rewrite H. Qed.

Lemma consumed_all (s : string) : Re.consumed s "" = s.
Proof.
  rewrite <- (append_nil_r s) at 1. apply consumed_app.
Qed.

Lemma ngroups_doctest_value_pattern : Re.ngroups doctest_value_pattern = 8.
Proof. reflexivity. Qed.

Lemma stops_app (cl : Re.cclass) (s t : string) :
  s <> "" -> Re.stops cl s = true -> Re.stops cl (s ++ t) = true.
Proof. intros Hne H. destruct s; [now elim Hne | exact H]. Qed.

Lemma all_in_any (s : string) : Re.all_in Re.CAny s = true.
Proof. induction s; [reflexivity | assumption]. Qed.

(** The pattern on a section whose outcome is a raised exception: the
    first four groups are the path, the line number, the function and
    the example, the eighth is all the text after [Exception raised:]. *)
Lemma match_at_exception_section (path line fn indent src text : string) :
  mem DQ path = false ->
  Re.all_in Re.CDigit line = true ->
  mem LF fn = false ->
  Re.all_in Re.CSpace indent = true ->
  src <> "" ->
  Re.stops Re.CSpace src = true ->
  mem LF src = false ->
  Re.match_at doctest_value_pattern
              (Samples.exception_section path line fn indent src text)
  = Some ([Some path; Some line; Some fn; Some src; None; None; None; Some text], "").
Proof.
  intros Hpath Hline Hfn Hindent Hsrc0 Hsrc1 Hsrc2.
  apply leads_match_at. rewrite ngroups_doctest_value_pattern. cbn [repeat].
  replace (Samples.exception_section path line fn indent src text)
    with (("File " ++ chr DQ) ++ path ++ (chr DQ ++ ", line ") ++ line
          ++ ", in " ++ fn ++ (chr LF ++ "Failed example:" ++ chr LF)
          ++ indent ++ src ++ chr LF ++ ("Exception raised:" ++ chr LF) ++ text).
  2:{ unfold Samples.exception_section, Samples.file_header.
      rewrite !append_assoc. reflexivity. }
  unfold doctest_value_pattern.
  eapply leads_groups_eq.
  - eapply leads_seq; [apply leads_lit, strip_prefix_app|].
    eapply leads_seq.
    { apply leads_group, leads_star; [|reflexivity].
      now rewrite all_in_not_mem, Hpath. }
    eapply leads_seq; [apply leads_lit, strip_prefix_app|].
    eapply leads_seq.
    { apply leads_group, leads_star; [assumption | reflexivity]. }
    eapply leads_seq; [apply leads_lit, strip_prefix_app|].
    eapply leads_seq.
    { apply leads_group, leads_star; [|reflexivity].
      now rewrite all_in_not_mem, Hfn. }
    eapply leads_seq; [apply leads_lit, strip_prefix_app|].
    eapply leads_seq.
    { apply leads_star; [assumption | now apply stops_app]. }
    eapply leads_seq.
    { apply leads_group, leads_star; [|reflexivity].
      now rewrite all_in_not_mem, Hsrc2. }
    eapply leads_seq; [apply leads_lit, strip_prefix_app|].
    apply leads_alt_right; [apply fails_seq_lit; reflexivity|].
    eapply leads_seq; [apply leads_lit, strip_prefix_app|].
    apply leads_group, leads_star_all, all_in_any.
  - rewrite !consumed_app, consumed_all. reflexivity.
Qed.

(** The pattern starts with [F]: the search passes over any other
    character. *)
Lemma match_at_needs_F (c : ascii) (s : string) :
  Ascii.eqb c "F" = false -> Re.match_at doctest_value_pattern (String c s) = None.
Proof.
  intros H. unfold Re.match_at, doctest_value_pattern.
  apply fails_seq_lit. cbn [append Re.strip_prefix].
  now rewrite Ascii.eqb_sym, H.
Qed.

Lemma search_skips_before_F (pre s : string) :
  mem "F" pre = false ->
  Re.search doctest_value_pattern (pre ++ s) = Re.search doctest_value_pattern s.
Proof.
  induction pre as [|c pre IH]; intros H; [reflexivity|].
  simpl in H. apply orb_false_iff in H as [Hc Hpre].
  cbn [append]. rewrite search_later by now apply match_at_needs_F.
  now apply IH.
Qed.

Lemma digit_val_in_class (a : ascii) (d : Z) :
  digit_val a = Some d -> Re.in_class Re.CDigit a = true.
Proof.
  unfold digit_val. cbn [Re.in_class].
  now destruct (Nat.leb 48 (nat_of_ascii a) && Nat.leb (nat_of_ascii a) 57).
Qed.

Lemma int_acc_ok_digits (s : string) :
  forall acc z, int_acc acc s = Ok z -> Re.all_in Re.CDigit s = true.
Proof.
  induction s as [|a s IH]; intros acc z H; [reflexivity|].
  cbn [int_acc] in H. destruct (digit_val a) as [d|] eqn:Hd; [|discriminate].
  cbn [Re.all_in]. rewrite (digit_val_in_class a d Hd). exact (IH _ z H).
Qed.

(** [int] accepts a text only if it is made of digits. *)
Lemma int_ok_digits (s : string) (z : Z) :
  int s = Ok z -> Re.all_in Re.CDigit s = true.
Proof.
  destruct s as [|a s]; [discriminate|]. apply int_acc_ok_digits.
Qed.

Lemma split_not_nil (c : ascii) (s : string) : split c s <> [].
Proof.
  destruct s as [|a s]; [discriminate|].
  cbn [split]. destruct (Ascii.eqb a c); [discriminate|].
  destruct (split c s); discriminate.
Qed.

Lemma pop_snoc {A : Type} (init : list A) (x : A) :
  pop (init ++ [x])%list = Ok (x, init).
Proof.
  induction init as [|y init IH]; [reflexivity|].
  cbn [app]. destruct (init ++ [x])%list as [|b l] eqn:E.
  - now destruct init.
  - cbn [pop]. cbn [pop] in IH. rewrite IH. reflexivity.
Qed.

Lemma last_to_front_snoc (init : list string) (x : string) :
  last_to_front (init ++ [x])%list = Ok (x :: init).
Proof. unfold last_to_front. now rewrite pop_snoc. Qed.

(** The loop body on a section with the traceback indented as doctest
    prints it: the message lines are not the lines of the exception text
    with the last one moved to the front, the indentation is gone. *)
Lemma format_part_exception_lines_not_raw :
  exists r,
    format_part Samples.indented_section = Ok r /\
    ls_etype r = "error" /\
    nth_error (Re.groups_of_search doctest_value_pattern Samples.indented_section) 7
    = Some (Some Samples.indented_text) /\
    Ok (ls_lines r) <> last_to_front (split LF Samples.indented_text).
Proof.
  eexists. split; [vm_compute; reflexivity|].
  split; [reflexivity|]. split; [vm_compute; reflexivity|].
  vm_compute. discriminate.
Qed.

(** The loop body on a section of the layout whose outcome is a raised
    exception with some text after [Exception raised:]: the record has
    kind [error], the file and line of the section header, and as message
    lines the exception text, with the newlines at its two ends stripped
    and its common indentation removed, split into lines, the last line
    moved to the front. *)
Theorem format_part_exception_section :
  (forall (pre path line fn indent src text : string) (z : Z),
      mem "F" pre = false ->
      mem DQ path = false ->
      int line = Ok z ->
      mem LF fn = false ->
      Re.all_in Re.CSpace indent = true ->
      src <> "" ->
      Re.stops Re.CSpace src = true ->
      mem LF src = false ->
      text <> "" ->
      exists init last,
        split LF (Textwrap.dedent (strip LF text)) = (init ++ [last])%list /\
        format_part (pre ++ Samples.exception_section path line fn indent src text)
        = Ok (mkLineset "error" path z (last :: init)))
  /\
  format_part Samples.name_error_section
  = Ok (mkLineset "error" "/foo.py" 10
                  [ "NameError: x";
                    "Traceback (most recent call last):";
                    "  ..." ]).
Proof.
  split; [|vm_compute; reflexivity].
  intros pre path line fn indent src text z
         Hpre Hpath Hline Hfn Hindent Hsrc0 Hsrc1 Hsrc2 Htext.
  destruct (exists_last (split_not_nil LF (Textwrap.dedent (strip LF text))))
    as (init & last & Hsplit).
  exists init, last. split; [exact Hsplit|].
  unfold format_part.
  rewrite search_skips_before_F by assumption.
  rewrite (search_here _ _ _ _
             (match_at_exception_section path line fn indent src text
                Hpath (int_ok_digits line z Hline) Hfn Hindent Hsrc0 Hsrc1 Hsrc2)).
  cbn [as_str bind]. rewrite Hline. cbn [bind].
  destruct text as [|a text]; [now elim Htext|].
  cbn [truthy as_str bind].
  rewrite Hsplit, last_to_front_snoc. reflexivity.
Qed.

Lemma format_part_exception_section_witness :
  mem "F" (chr LF) = false /\
  mem DQ "/foo.py" = false /\
  int "10" = Ok 10%Z /\
  mem LF "foo_fn" = false /\
  Re.all_in Re.CSpace "    " = true /\
  "print(bar)" <> "" /\
  Re.stops Re.CSpace "print(bar)" = true /\
  mem LF "print(bar)" = false /\
  Samples.name_error_text <> "" /\
  exists init last,
    split LF (Textwrap.dedent (strip LF Samples.name_error_text))
    = (init ++ [last])%list /\
    format_part (chr LF ++ Samples.exception_section
                   "/foo.py" "10" "foo_fn" "    " "print(bar)"
                   Samples.name_error_text)
    = Ok (mkLineset "error" "/foo.py" 10 (last :: init)).
Proof.
  repeat (split; [first [reflexivity | discriminate]|]).
  apply (proj1 format_part_exception_section);
    first [reflexivity | discriminate].
Defined.

(** ** A section that does not match *)






(** ** What a match of the pattern holds *)

Lemma star_inv {R : Type} (cl : Re.cclass) (s : string)
      (k : string -> option R) (x : R) :
  Re.star cl s k = Some x ->
  exists a rest, s = a ++ rest /\ Re.all_in cl a = true /\ k rest = Some x.
Proof.
  induction s as [|c s IH]; intros H.
  - exists "", "". auto.
  - cbn [Re.star] in H. destruct (Re.in_class cl c) eqn:Hc.
    + destruct (Re.star cl s k) as [y|] eqn:Hs.
      * destruct (IH H) as (a & rest & -> & Ha & Hk).
        exists (String c a), rest. cbn [Re.all_in]. rewrite Hc, Ha. auto.
      * exists "", (String c s). auto.
    + exists "", (String c s). auto.
Qed.

Lemma seq_lit_inv {R : Type} (l : string) (r : Re.regex) (s : string)
      (g : Re.groups) (k : string -> Re.groups -> option R) (x : R) :
  Re.rmatch (Re.Seq (Re.Lit l) r) s g k = Some x ->
  exists s', s = l ++ s' /\ Re.rmatch r s' g k = Some x.
Proof.
  cbn [Re.rmatch]. destruct (Re.strip_prefix l s) as [s'|] eqn:E; [|discriminate].
  intros H. exists s'. split; [now apply strip_prefix_iff | exact H].
Qed.

Lemma seq_star_inv {R : Type} (cl : Re.cclass) (r : Re.regex) (s : string)
      (g : Re.groups) (k : string -> Re.groups -> option R) (x : R) :
  Re.rmatch (Re.Seq (Re.Star cl) r) s g k = Some x ->
  exists a rest,
    s = a ++ rest /\ Re.all_in cl a = true /\ Re.rmatch r rest g k = Some x.
Proof. cbn [Re.rmatch]. apply star_inv. Qed.

Lemma seq_group_star_inv {R : Type} (i : nat) (cl : Re.cclass) (r : Re.regex)
      (s : string) (g : Re.groups) (k : string -> Re.groups -> option R) (x : R) :
  Re.rmatch (Re.Seq (Re.Group i (Re.Star cl)) r) s g k = Some x ->
  exists a rest,
    s = a ++ rest /\ Re.all_in cl a = true /\
    Re.rmatch r rest (Re.set_group i a g) k = Some x.
Proof.
  cbn [Re.rmatch]. intros H.
  apply star_inv in H as (a & rest & -> & Ha & H).
  rewrite consumed_app in H. now exists a, rest.
Qed.

Lemma length_set_nth (i : nat) (v : option string) (g : Re.groups) :
  List.length (Re.set_nth i v g) = List.length g.
Proof.
  revert i; induction g as [|y g IH]; intros i; [now destruct i|].
  destruct i; cbn [Re.set_nth List.length]; [reflexivity | now rewrite IH].
Qed.

Lemma firstn_set_nth (n i : nat) (v : option string) (g : Re.groups) :
  n <= i -> firstn n (Re.set_nth i v g) = firstn n g.
Proof.
  revert n i; induction g as [|y g IH]; intros n i Hn; [now destruct i|].
  destruct i; cbn [Re.set_nth].
  - now replace n with 0 by lia.
  - destruct n; [reflexivity|]. cbn [firstn]. rewrite IH by lia. reflexivity.
Qed.

(** A part of the pattern whose groups all come after the [n]-th leaves
    the first [n] groups as they are. *)
Lemma rmatch_keeps_groups {R : Type} (n : nat) (r : Re.regex) :
  Re.group_free n r = true ->
  forall (s : string) (g : Re.groups) (k : string -> Re.groups -> option R) (x : R),
    Re.rmatch r s g k = Some x ->
    exists s' g',
      k s' g' = Some x /\
      List.length g' = List.length g /\
      firstn n g' = firstn n g.
Proof.
  induction r as [l | cl | cl | r1 IH1 | r1 IH1 r2 IH2 | r1 IH1 r2 IH2 | i r1 IH1];
    intros Hfree s g k x H; cbn [Re.group_free] in Hfree; cbn [Re.rmatch] in H.
  - destruct (Re.strip_prefix l s) as [s'|]; [|discriminate]. now exists s', g.
  - apply star_inv in H as (a & rest & _ & _ & H). now exists rest, g.
  - destruct s as [|c s]; [discriminate|].
    destruct (Re.in_class cl c); [|discriminate].
    apply star_inv in H as (a & rest & _ & _ & H). now exists rest, g.
  - destruct (Re.rmatch r1 s g k) as [y|] eqn:E.
    + inversion H; subst. now apply (IH1 Hfree s g k).
    + now exists s, g.
  - apply andb_true_iff in Hfree as [F1 F2].
    apply (IH1 F1) in H as (s1 & g1 & H & L1 & N1).
    apply (IH2 F2) in H as (s2 & g2 & H & L2 & N2).
    exists s2, g2. repeat split; [assumption | congruence | congruence].
  - apply andb_true_iff in Hfree as [F1 F2].
    destruct (Re.rmatch r1 s g k) as [y|] eqn:E.
    + inversion H; subst. now apply (IH1 F1 s g k).
    + now apply (IH2 F2 s g k).
  - apply andb_true_iff in Hfree as [Hi F1]. apply Nat.ltb_lt in Hi.
    apply (IH1 F1) in H as (s1 & g1 & H & L1 & N1).
    exists s1, (Re.set_group i (Re.consumed s s1) g1).
    unfold Re.set_group. split; [exact H|]. split.
    + now rewrite length_set_nth.
    + rewrite firstn_set_nth by lia. exact N1.
Qed.

(** Wherever the pattern matches, the first four groups took part in the
    match: a path without a double quote, a line number made of digits, a
    function and an example without a newline. *)
Lemma match_at_groups (s rest : string) (g : Re.groups) :
  Re.match_at doctest_value_pattern s = Some (g, rest) ->
  exists path line fn src e5 e6 e7 e8,
    g = [Some path; Some line; Some fn; Some src; e5; e6; e7; e8] /\
    mem DQ path = false /\
    Re.all_in Re.CDigit line = true /\
    mem LF fn = false /\
    mem LF src = false.
Proof.
  unfold Re.match_at. rewrite ngroups_doctest_value_pattern.
  unfold doctest_value_pattern. cbn [repeat]. intros H.
  apply seq_lit_inv in H as (s1 & _ & H).
  apply seq_group_star_inv in H as (path & s2 & _ & Hpath & H).
  apply seq_lit_inv in H as (s3 & _ & H).
  apply seq_group_star_inv in H as (line & s4 & _ & Hline & H).
  apply seq_lit_inv in H as (s5 & _ & H).
  apply seq_group_star_inv in H as (fn & s6 & _ & Hfn & H).
  apply seq_lit_inv in H as (s7 & _ & H).
  apply seq_star_inv in H as (ws & s8 & _ & _ & H).
  apply seq_group_star_inv in H as (src & s9 & _ & Hsrc & H).
  apply (rmatch_keeps_groups 4) in H as (s' & g' & H & Hlen & Hfirst);
    [|reflexivity].
  inversion H; subst. cbn in Hlen, Hfirst.
  destruct g as [|g1 [|g2 [|g3 [|g4 [|e5 [|e6 [|e7 [|e8 [|e9 g]]]]]]]]];
    try discriminate.
  cbn [firstn] in Hfirst. inversion Hfirst; subst.
  exists path, line, fn, src, e5, e6, e7, e8.
  rewrite all_in_not_mem in Hpath, Hfn, Hsrc.
  apply negb_true_iff in Hpath, Hfn, Hsrc. auto.
Qed.

Lemma search_inv (r : Re.regex) (s : string) (g : Re.groups) :
  Re.search r s = Some g ->
  exists pre s' rest, s = pre ++ s' /\ Re.match_at r s' = Some (g, rest).
Proof.
  induction s as [|c s IH]; cbn [Re.search]; intros H.
  - destruct (Re.match_at r "") as [[g' rest]|] eqn:E; [|discriminate].
    inversion H; subst. now exists "", "", rest.
  - destruct (Re.match_at r (String c s)) as [[g' rest]|] eqn:E.
    + inversion H; subst. now exists "", (String c s), rest.
    + destruct (IH H) as (pre & s' & rest & -> & Hm).
      now exists (String c pre), s', rest.
Qed.

Lemma search_groups (s : string) (g : Re.groups) :
  Re.search doctest_value_pattern s = Some g ->
  exists path line fn src e5 e6 e7 e8,
    g = [Some path; Some line; Some fn; Some src; e5; e6; e7; e8] /\
    mem DQ path = false /\
    Re.all_in Re.CDigit line = true /\
    mem LF fn = false /\
    mem LF src = false.
Proof.
  intros H. apply search_inv in H as (pre & s' & rest & _ & H).
  now apply match_at_groups in H.
Qed.

Lemma in_class_digit_val (a : ascii) :
  Re.in_class Re.CDigit a = true -> exists d, digit_val a = Some d.
Proof.
  unfold digit_val. cbn [Re.in_class]. intros ->. eauto.
Qed.

Lemma int_acc_digits (s : string) :
  Re.all_in Re.CDigit s = true -> forall acc, exists z, int_acc acc s = Ok z.
Proof.
  induction s as [|a s IH]; intros H acc; [now exists acc|].
  cbn [Re.all_in] in H. apply andb_true_iff in H as [Ha Hs].
  destruct (in_class_digit_val a Ha) as [d Hd].
  cbn [int_acc]. rewrite Hd. now apply IH.
Qed.

(** What the pattern takes as line number, [int] reads, unless it is
    empty. *)
Lemma int_digits (s : string) :
  Re.all_in Re.CDigit s = true -> s <> "" -> exists z, int s = Ok z.
Proof.
  intros H Hne. destruct s as [|a s]; [now elim Hne|].
  now apply int_acc_digits.
Qed.

Lemma last_to_front_ok (c : ascii) (s : string) :
  exists lines, last_to_front (split c s) = Ok lines.
Proof.
  destruct (exists_last (split_not_nil c s)) as (init & x & ->).
  exists (x :: init). apply last_to_front_snoc.
Qed.

(** The loop body raises in two cases only: the part does not match the
    pattern ([AttributeError], from [m.groups()] on [None]), or it
    matches with no digit after [line] ([ValueError], from [int('')]). *)
Lemma format_part_raise_inv (part : string) (e : exn) :
  format_part part = Raise e ->
  (Re.search doctest_value_pattern part = None /\ e = AttributeError) \/
  (nth_error (Re.groups_of_search doctest_value_pattern part) 1 = Some (Some "")
   /\ e = ValueError).
Proof.
  unfold format_part, Re.groups_of_search.
  destruct (Re.search doctest_value_pattern part) as [g|] eqn:Hs.
  - destruct (search_groups part g Hs)
      as (path & line & fn & src & e5 & e6 & e7 & e8 & -> & _ & Hline & _ & _).
    cbn [as_str bind nth_error]. intros H. right.
    destruct line as [|a line].
    + cbn in H. inversion H. auto.
    + destruct (int_digits (String a line) Hline) as [z Hz]; [discriminate|].
      rewrite Hz in H. cbn [bind] in H.
      destruct (truthy e8) eqn:T8.
      * destruct e8 as [exc|]; [|discriminate]. cbn [as_str bind] in H.
        destruct (last_to_front_ok LF (Textwrap.dedent (strip LF exc))) as [ls Hls].
        rewrite Hls in H. discriminate.
      * destruct (truthy e7); discriminate.
  - intros H. left. inversion H. auto.
Qed.

(* ================================================================= *)
(** * Further properties of the plugin *)

(** ** The emitter *)

Lemma slice_from_suffix (n : nat) (s : string) :
  exists dropped, s = dropped ++ slice_from n s.
Proof.
  revert s; induction n as [|n IH]; intros s.
  - exists "". now destruct s.
  - destruct s as [|a s]; [now exists ""|].
    destruct (IH s) as [d Hd]. exists (String a d). cbn [slice_from append].
    now rewrite <- Hd.
Qed.

(** X1. The file name written is what is left of the given one after some
    leading characters are dropped: nothing is added or changed. *)
Theorem format_testfname_is_suffix (self : NoseMachineReadableOutput)
        (fname : string) :
  exists dropped, fname = dropped ++ _format_testfname self fname.
Proof.
  unfold _format_testfname.
  destruct (startswith fname (basepath self)).
  - apply slice_from_suffix.
  - now exists "".
Qed.

(** The lines [_write_lines] adds, in closed form *)
Lemma stream_write_lines (self : NoseMachineReadableOutput)
      (etype fname : string) (lineno : Z) (lines : list string) :
  let loc := _format_testfname self fname ++ ":" ++ format_d lineno in
  stream (_write_lines self etype fname lineno lines)
  = List.app (stream self)
      match lines with
      | [] => []
      | l0 :: rest =>
          (loc ++ ": " ++ etype ++ ": " ++ l0)
            :: map (fun line => loc ++ ": " ++ mul " " (String.length etype + 1)
                                    ++ " " ++ line) rest
      end.
Proof.
  intros loc. unfold _write_lines. fold loc.
  destruct lines as [|l0 [|l1 rest]].
  - cbn. now rewrite app_nil_r.
  - reflexivity.
  - change (Nat.ltb 1 (List.length (l0 :: l1 :: rest))) with true.
    cbv iota. cbn [tl].
    rewrite (stream_writeln_all
               (fun line => loc ++ ": " ++ mul " " (String.length etype + 1)
                                ++ " " ++ line)).
    cbn [writeln stream]. now rewrite <- app_assoc.
Qed.

Lemma length_stream_write_lines (self : NoseMachineReadableOutput)
      (etype fname : string) (lineno : Z) (lines : list string) :
  List.length (stream (_write_lines self etype fname lineno lines))
  = List.length (stream self) + List.length lines.
Proof.
  rewrite stream_write_lines, length_app. f_equal.
  destruct lines as [|l0 rest]; [reflexivity|].
  cbn [List.length]. now rewrite length_map.
Qed.

(** X2. [_write_lines] leaves the lines already written where they are and
    adds one line for each message line, every one of them starting with
    [<file>:<line>: ]; the project root is not touched. *)
Theorem write_lines_appends (self : NoseMachineReadableOutput)
        (etype fname : string) (lineno : Z) (lines : list string) :
  exists new : list string,
    stream (_write_lines self etype fname lineno lines)
    = List.app (stream self) new /\
    List.length new = List.length lines /\
    basepath (_write_lines self etype fname lineno lines) = basepath self /\
    forall l, In l new ->
      startswith l (_format_testfname self fname ++ ":" ++ format_d lineno ++ ": ")
      = true.
Proof.
  pose proof (stream_write_lines self etype fname lineno lines) as Hs.
  cbv zeta in Hs.
  set (loc := _format_testfname self fname ++ ":" ++ format_d lineno) in *.
  assert (Hloc : _format_testfname self fname ++ ":" ++ format_d lineno ++ ": "
                 = loc ++ ": ").
  { unfold loc. now rewrite !append_assoc. }
  rewrite Hloc.
  assert (Hstart : forall rest, startswith (loc ++ ": " ++ rest) (loc ++ ": ") = true).
  { intros rest. rewrite <- append_assoc. apply startswith_app. }
  eexists. split; [exact Hs|]. split; [|split].
  - destruct lines as [|l0 rest]; [reflexivity|].
    cbn [List.length]. now rewrite length_map.
  - apply basepath_write_lines.
  - destruct lines as [|l0 rest]; [intros l []|].
    intros l [<- | Hl]; [apply Hstart|].
    apply in_map_iff in Hl as (x & <- & _). apply Hstart.
Qed.

(** ** The frame selector *)

Lemma last_item_In {A : Type} (l : list A) (x : A) :
  last_item l = Ok x -> In x l.
Proof.
  induction l as [|a l IH]; [discriminate|].
  destruct l as [|b l]; intros H.
  - inversion H. now left.
  - right. now apply IH.
Qed.

(** X3. The frame selected is one of the frames of the traceback, and no
    frame of the traceback scores higher. *)
Theorem selectBestStackFrame_in_traceback_and_highest
        (self : NoseMachineReadableOutput) (traceback : list frame) (best : frame) :
  _selectBestStackFrame self traceback = Ok best ->
  In best traceback /\
  forall g, In g traceback -> (_calcScore self g <= _calcScore self best)%Q.
Proof.
  unfold _selectBestStackFrame.
  destruct (last_item traceback) as [last|e] eqn:Hlast; [|discriminate].
  cbn [bind]. intros H. inversion H as [Hbest]. clear H.
  apply last_item_In in Hlast.
  destruct (walk_spec self traceback last 0%Q)
    as [[Hw Hall] | (l1 & f & l2 & Htb & Hw & Hlt & Hl1 & Hl2)].
  - rewrite Hw. split; [exact Hlast|]. intros g Hg.
    pose proof (Hall g Hg). pose proof (calcScore_range self last). lra.
  - rewrite Hw. split.
    + rewrite Htb. apply in_or_app. right. now left.
    + intros g Hg. rewrite Htb in Hg. apply in_app_or in Hg as [Hg | [<- | Hg]].
      * apply Qlt_le_weak. now apply Hl1.
      * apply Qle_refl.
      * now apply Hl2.
Qed.

Lemma selectBestStackFrame_in_traceback_and_highest_witness :
  _selectBestStackFrame Samples.plugin [Samples.f0; Samples.f1; Samples.f2]
  = Ok Samples.f2 /\
  In Samples.f2 [Samples.f0; Samples.f1; Samples.f2] /\
  forall g, In g [Samples.f0; Samples.f1; Samples.f2] ->
            (_calcScore Samples.plugin g <= _calcScore Samples.plugin Samples.f2)%Q.
Proof.
  split; [reflexivity|].
  apply (selectBestStackFrame_in_traceback_and_highest Samples.plugin).
  reflexivity.
Defined.

(** X4. The selector raises exactly on the empty traceback, and then
    [IndexError]; on a traceback of one frame it returns that frame,
    whatever it scores. *)
Theorem selectBestStackFrame_edges (self : NoseMachineReadableOutput) :
  _selectBestStackFrame self [] = Raise IndexError /\
  (forall (traceback : list frame) (e : exn),
      _selectBestStackFrame self traceback = Raise e ->
      traceback = [] /\ e = IndexError) /\
  (forall fr : frame, _selectBestStackFrame self [fr] = Ok fr).
Proof.
  split; [reflexivity|]. split.
  - intros traceback e H. destruct traceback as [|fr rest].
    + inversion H. auto.
    + destruct (last_item_nonempty (fr :: rest)) as [last Hlast]; [discriminate|].
      unfold _selectBestStackFrame in H. rewrite Hlast in H. discriminate.
  - intros fr. unfold _selectBestStackFrame. cbn [last_item bind walk].
    cbv zeta.
    destruct (Qgt_bool (_calcScore self fr) 0); [|reflexivity].
    now destruct (Qge_bool (_calcScore self fr) 1).
Qed.

Lemma selectBestStackFrame_edges_witness :
  _selectBestStackFrame Samples.plugin [] = Raise IndexError /\
  [] = (@nil frame) /\ IndexError = IndexError.
Proof.
  split; [reflexivity|].
  apply (proj1 (proj2 (selectBestStackFrame_edges Samples.plugin))).
  reflexivity.
Defined.

(** ** The hooks *)

Lemma fold_write_lineset_stream (rs : list lineset) :
  forall self : NoseMachineReadableOutput,
    basepath (fold_left write_lineset rs self) = basepath self /\
    exists new : list string,
      stream (fold_left write_lineset rs self) = List.app (stream self) new /\
      List.length new = list_sum (map (fun r => List.length (ls_lines r)) rs).
Proof.
  induction rs as [|r rs IH]; intros self.
  - split; [reflexivity|]. exists []. cbn. now rewrite app_nil_r.
  - cbn [fold_left]. destruct (IH (write_lineset self r)) as (Hb & new & Hs & Hn).
    change (write_lineset self r)
      with (_write_lines self (ls_etype r) (ls_fname r) (ls_lineno r) (ls_lines r))
      in Hb, Hs.
    rewrite basepath_write_lines in Hb. split; [exact Hb|].
    rewrite stream_write_lines in Hs. cbv zeta in Hs.
    rewrite <- app_assoc in Hs.
    eexists. split; [exact Hs|].
    rewrite length_app, Hn. cbn [map list_sum]. f_equal.
    destruct (ls_lines r) as [|l0 rest]; [reflexivity|].
    cbn [List.length]. now rewrite length_map.
Qed.

(** X5. Whatever it is given, and whether it raises or not, [add_formatted]
    only adds lines after the ones already written and does not touch the
    project root. *)
Theorem add_formatted_only_appends (self : NoseMachineReadableOutput)
        (etype : string) (err : exc_info) :
  basepath (fst (add_formatted self etype err)) = basepath self /\
  exists new : list string,
    stream (fst (add_formatted self etype err)) = List.app (stream self) new.
Proof.
  unfold add_formatted.
  destruct (startswith (value_str err) "Failed doctest test").
  - cbn [fst].
    destruct (fold_write_lineset_stream
                (yielded (_format_doctests (value_str err))) self)
      as (Hb & new & Hs & _).
    split; [exact Hb | now exists new].
  - destruct (_selectBestStackFrame self (fulltb err)) as [fr|e]; cbn [fst].
    + split; [apply basepath_write_lines|].
      rewrite stream_write_lines. eexists. reflexivity.
    + split; [reflexivity|]. exists []. now rewrite app_nil_r.
Qed.

(** X6. For a failure that is not a doctest report: with no frame in the
    traceback the hook raises [IndexError] and writes nothing; otherwise
    it does not raise and writes, at the file and line of the frame the
    selector returns and with the kind of the hook, one line for each
    line of the exception, the newlines at the ends of each stripped. *)
Theorem add_formatted_traceback (self : NoseMachineReadableOutput)
        (etype : string) (err : exc_info) :
  startswith (value_str err) "Failed doctest test" = false ->
  (fulltb err = [] -> add_formatted self etype err = (self, Some IndexError)) /\
  (fulltb err <> [] ->
   exists fr : frame,
     _selectBestStackFrame self (fulltb err) = Ok fr /\
     add_formatted self etype err
     = (_write_lines self etype (frame_fname fr) (frame_lineno fr)
                     (map (strip LF) (exception_only err)), None) /\
     List.length (stream (fst (add_formatted self etype err)))
     = List.length (stream self) + List.length (exception_only err)).
Proof.
  intros Hstart. unfold add_formatted. rewrite Hstart. split.
  - intros ->. reflexivity.
  - intros Hne. destruct (last_item_nonempty (fulltb err) Hne) as [last Hlast].
    unfold _selectBestStackFrame. rewrite Hlast. cbn [bind].
    eexists. split; [reflexivity|]. split; [reflexivity|].
    cbn [fst]. now rewrite length_stream_write_lines, length_map.
Qed.

Lemma add_formatted_traceback_witness :
  let err := mkExcInfo "boom" [Samples.f0; Samples.f1; Samples.f2]
                       ["ValueError: boom" ++ chr LF] in
  startswith (value_str err) "Failed doctest test" = false /\
  fulltb err <> [] /\
  exists fr : frame,
    _selectBestStackFrame Samples.plugin (fulltb err) = Ok fr /\
    add_formatted Samples.plugin "error" err
    = (_write_lines Samples.plugin "error" (frame_fname fr) (frame_lineno fr)
                    (map (strip LF) (exception_only err)), None) /\
    List.length (stream (fst (add_formatted Samples.plugin "error" err)))
    = List.length (stream Samples.plugin) + List.length (exception_only err).
Proof.
  intros err. split; [reflexivity|]. split; [discriminate|].
  apply (proj2 (add_formatted_traceback Samples.plugin "error" err eq_refl)).
  discriminate.
Defined.

(** X7. For a doctest report the kind of the hook and the traceback are not
    used: [addError] and [addFailure] write the same lines, those of the
    records the parser yields, and end in the same way. *)
Theorem add_formatted_doctest_ignores_kind (self : NoseMachineReadableOutput)
        (report : string) (tb tb' : list frame) (eo eo' : list string) :
  startswith report "Failed doctest test" = true ->
  addError self (mkExcInfo report tb eo) = addFailure self (mkExcInfo report tb' eo') /\
  addError self (mkExcInfo report tb eo)
  = (fold_left write_lineset (yielded (_format_doctests report)) self,
     raised (_format_doctests report)).
Proof.
  intros H. unfold addError, addFailure, add_formatted. cbn [value_str].
  rewrite H. split; reflexivity.
Qed.

Lemma add_formatted_doctest_ignores_kind_witness :
  startswith Samples.report "Failed doctest test" = true /\
  addError Samples.plugin (mkExcInfo Samples.report [] [])
  = addFailure Samples.plugin (mkExcInfo Samples.report [Samples.f0] ["x"]).
Proof.
  split; [reflexivity|].
  apply (add_formatted_doctest_ignores_kind
           Samples.plugin Samples.report [] [Samples.f0] [] ["x"]).
  reflexivity.
Defined.

(** X8. A doctest report without a dash has no section: the parser yields
    nothing and returns, and the hook writes nothing and does not raise. *)
Theorem format_doctests_no_divider (self : NoseMachineReadableOutput)
        (etype report : string) (tb : list frame) (eo : list string) :
  mem "-" report = false ->
  _format_doctests report = mkRun [] None /\
  (startswith report "Failed doctest test" = true ->
   add_formatted self etype (mkExcInfo report tb eo) = (self, None)).
Proof.
  intros Hd.
  assert (Hrun : _format_doctests report = mkRun [] None).
  { unfold _format_doctests. now rewrite split_dashes_whole. }
  split; [exact Hrun|].
  intros Hs. unfold add_formatted. cbn [value_str]. now rewrite Hs, Hrun.
Qed.

Lemma format_doctests_no_divider_witness :
  let report := "Failed doctest test for foo" in
  mem "-" report = false /\
  _format_doctests report = mkRun [] None /\
  (startswith report "Failed doctest test" = true ->
   add_formatted Samples.plugin "fail" (mkExcInfo report [] [])
   = (Samples.plugin, None)).
Proof.
  intros report. split; [reflexivity|].
  apply (format_doctests_no_divider Samples.plugin "fail" report [] []).
  reflexivity.
Defined.

(** ** The pieces of a report *)

Lemma mem_append (c : ascii) (a b : string) :
  mem c (a ++ b) = mem c a || mem c b.
Proof.
  induction a as [|x a IH]; [reflexivity|].
  cbn [append mem]. now rewrite IH, orb_assoc.
Qed.

Lemma split_from_dash_free (n : nat) :
  forall s cur : string,
    String.length s <= n ->
    mem "-" cur = false ->
    Forall (fun p => mem "-" p = false) (Re.split_from dashes s 0 cur) /\
    Re.split_from dashes s 0 cur <> [].
Proof.
  induction n as [|n IH]; intros s cur Hlen Hcur.
  - destruct s; [|simpl in Hlen; lia].
    split; [now constructor | discriminate].
  - destruct s as [|c s]; [split; [now constructor | discriminate]|].
    simpl in Hlen.
    destruct (Ascii.eqb_spec c "-") as [->|Hc].
    + rewrite split_from_dash.
      destruct (IH (lstrip "-" s) "") as [HF _]; [|reflexivity|].
      * pose proof (length_lstrip_le "-" s). lia.
      * split; [now constructor | discriminate].
    + apply Ascii.eqb_neq in Hc.
      cbn [Re.split_from]. rewrite (match_at_dashes_other c s Hc).
      apply IH; [lia|].
      rewrite mem_append, Hcur. cbn [chr mem]. now rewrite Hc.
Qed.

(** X9. [re.split('-+', s)] gives at least one piece, and no piece has a
    dash in it. *)
Theorem split_dashes_pieces (s : string) :
  Re.split dashes s <> [] /\
  Forall (fun p => mem "-" p = false) (Re.split dashes s).
Proof.
  destruct (split_from_dash_free (String.length s) s "" (le_n _) eq_refl).
  now split.
Qed.

(** ** What the parser yields and how it may end *)

Lemma int_acc_nonneg (s : string) :
  forall acc z, (0 <= acc)%Z -> int_acc acc s = Ok z -> (0 <= z)%Z.
Proof.
  induction s as [|a s IH]; intros acc z Hacc H.
  - inversion H. now subst.
  - cbn [int_acc] in H. destruct (digit_val a) as [d|] eqn:Hd; [|discriminate].
    apply (IH (10 * acc + d)%Z); [|exact H].
    unfold digit_val in Hd.
    destruct (Nat.leb 48 (nat_of_ascii a) && Nat.leb (nat_of_ascii a) 57);
      [|discriminate].
    inversion Hd. lia.
Qed.

Lemma int_nonneg (s : string) (z : Z) : int s = Ok z -> (0 <= z)%Z.
Proof.
  destruct s as [|a s]; [discriminate|]. apply int_acc_nonneg. lia.
Qed.

Lemma int_raises_value_error (s : string) (e : exn) :
  int s = Raise e -> e = ValueError.
Proof.
  destruct s as [|a s]; [intros H; now inversion H|].
  unfold int. generalize 0%Z. generalize (String a s). clear.
  induction s as [|a s IH]; intros acc H; [discriminate|].
  cbn [int_acc] in H. destruct (digit_val a); [now apply (IH _ H)|].
  now inversion H.
Qed.

(** The path that a match takes as its first group stands in the part,
    after [File] and the double quote. *)
Lemma search_path_in_part (part : string) (g : Re.groups) :
  Re.search doctest_value_pattern part = Some g ->
  exists pre path rest,
    part = pre ++ ("File " ++ chr DQ) ++ path ++ rest /\
    nth_error g 0 = Some (Some path).
Proof.
  intros H. apply search_inv in H as (pre & s' & rest0 & -> & H).
  unfold Re.match_at in H. rewrite ngroups_doctest_value_pattern in H.
  unfold doctest_value_pattern in H. cbn [repeat] in H.
  apply seq_lit_inv in H as (s1 & -> & H).
  apply seq_group_star_inv in H as (path & s2 & -> & _ & H).
  apply (rmatch_keeps_groups 1) in H as (s3 & g' & H & _ & Hfirst);
    [|reflexivity].
  inversion H; subst. exists pre, path, s2. split; [reflexivity|].
  cbn in Hfirst. destruct g as [|g1 g]; [discriminate|].
  cbn [firstn] in Hfirst. now inversion Hfirst.
Qed.

(** A record comes out of the loop body in one of three shapes. *)
Lemma format_part_ok_inv (part : string) (r : lineset) :
  format_part part = Ok r ->
  exists path line fn src e5 e6 e7 e8 z,
    Re.search doctest_value_pattern part
    = Some [Some path; Some line; Some fn; Some src; e5; e6; e7; e8] /\
    mem DQ path = false /\
    int line = Ok z /\
    ls_fname r = path /\
    ls_lineno r = z /\
    ((ls_etype r = "error" /\
      exists exc init last,
        e8 = Some exc /\ exc <> "" /\
        split LF (Textwrap.dedent (strip LF exc)) = (init ++ [last])%list /\
        ls_lines r = last :: init)
     \/
     (ls_etype r = "fail" /\ truthy e8 = false /\ truthy e7 = true /\
      ls_lines r = ["expected " ++ repr e5 ++ " but got nothing"])
     \/
     (ls_etype r = "fail" /\ truthy e8 = false /\ truthy e7 = false /\
      ls_lines r = ["expected " ++ repr e5 ++ " but got " ++ repr e6])).
Proof.
  unfold format_part.
  destruct (Re.search doctest_value_pattern part) as [g|] eqn:Hs; [|discriminate].
  destruct (search_groups part g Hs)
    as (path & line & fn & src & e5 & e6 & e7 & e8 & -> & Hpath & _ & _ & _).
  cbn [as_str bind]. destruct (int line) as [z|e] eqn:Hz; [|discriminate].
  cbn [bind]. intros H.
  exists path, line, fn, src, e5, e6, e7, e8, z.
  split; [first [reflexivity | exact Hs]|]. split; [exact Hpath|].
  split; [first [reflexivity | exact Hz]|].
  destruct (truthy e8) eqn:T8.
  - destruct e8 as [exc|]; [|discriminate]. cbn [as_str bind] in H.
    destruct (exists_last (split_not_nil LF (Textwrap.dedent (strip LF exc))))
      as (init & last & Hsplit).
    rewrite Hsplit, last_to_front_snoc in H. cbn [bind] in H.
    inversion H; subst. cbn. repeat split. left. split; [reflexivity|].
    exists exc, init, last. repeat split; auto.
    intros ->. discriminate.
  - destruct (truthy e7) eqn:T7; inversion H; subst; cbn; repeat split.
    + right. left. auto.
    + right. right. auto.
Qed.

Lemma format_parts_yielded (parts : list string) (r : lineset) :
  In r (yielded (format_parts parts)) ->
  exists part, In part parts /\ format_part part = Ok r.
Proof.
  induction parts as [|p parts IH]; [intros []|].
  cbn [format_parts]. destruct (format_part p) as [r0|e] eqn:Hp; [|intros []].
  cbn [yielded]. intros [<- | Hr].
  - exists p. split; [now left | exact Hp].
  - destruct (IH Hr) as (part & Hin & Hok). exists part. split; [now right | exact Hok].
Qed.

Lemma format_parts_raised (parts : list string) (e : exn) :
  raised (format_parts parts) = Some e ->
  exists part, In part parts /\ format_part part = Raise e.
Proof.
  induction parts as [|p parts IH]; [discriminate|].
  cbn [format_parts]. destruct (format_part p) as [r0|e0] eqn:Hp.
  - cbn [raised]. intros H. destruct (IH H) as (part & Hin & Hr).
    exists part. split; [now right | exact Hr].
  - cbn [raised]. intros H. inversion H; subst.
    exists p. split; [now left | exact Hp].
Qed.

Lemma tl_In {A : Type} (x : A) (l : list A) : In x (tl l) -> In x l.
Proof. destruct l; [intros [] | now right]. Qed.

(** X10. Every record the parser yields has kind [error] or [fail], a line
    number that is not negative, a file name without a double quote and at
    least one message line; a record of kind [fail] has exactly one, which
    starts with [expected ]. *)
Theorem format_doctests_records_well_formed (report : string) (r : lineset) :
  In r (yielded (_format_doctests report)) ->
  (ls_etype r = "error" \/ ls_etype r = "fail") /\
  (0 <= ls_lineno r)%Z /\
  mem DQ (ls_fname r) = false /\
  ls_lines r <> [] /\
  (ls_etype r = "fail" ->
   exists l, ls_lines r = [l] /\ startswith l "expected " = true).
Proof.
  intros Hr. apply format_parts_yielded in Hr as (part & _ & Hok).
  apply format_part_ok_inv in Hok
    as (path & line & fn & src & e5 & e6 & e7 & e8 & z
        & _ & Hpath & Hz & -> & -> & Hshape).
  split; [|split; [|split; [|split]]].
  - destruct Hshape as [[-> _] | [[-> _] | [-> _]]]; auto.
  - now apply (int_nonneg line).
  - exact Hpath.
  - destruct Hshape as [(_ & exc & init & last & _ & _ & _ & ->)
                       | [(_ & _ & _ & ->) | (_ & _ & _ & ->)]]; discriminate.
  - intros Hfail.
    destruct Hshape as [(He & _) | [(_ & _ & _ & ->) | (_ & _ & _ & ->)]].
    + rewrite He in Hfail. discriminate.
    + eexists. split; [reflexivity | apply (startswith_app "expected ")].
    + eexists. split; [reflexivity | apply (startswith_app "expected ")].
Qed.

Lemma format_doctests_records_well_formed_witness :
  let r := mkLineset "fail" "/foo.py" 5 ["expected '    foo' but got nothing"] in
  In r (yielded (_format_doctests Samples.report)) /\
  (ls_etype r = "error" \/ ls_etype r = "fail") /\
  (0 <= ls_lineno r)%Z /\
  mem DQ (ls_fname r) = false /\
  ls_lines r <> [] /\
  (ls_etype r = "fail" ->
   exists l, ls_lines r = [l] /\ startswith l "expected " = true).
Proof.
  intros r.
  assert (H : In r (yielded (_format_doctests Samples.report)))
    by (vm_compute; left; reflexivity).
  split; [exact H|].
  exact (format_doctests_records_well_formed Samples.report r H).
Defined.

(** X11. No record the parser yields has a dash in its file name: a path with
    a dash in it is cut by [re.split] before the pattern sees it. *)
Theorem format_doctests_no_dash_in_file_name (report : string) (r : lineset) :
  In r (yielded (_format_doctests report)) ->
  mem "-" (ls_fname r) = false.
Proof.
  intros Hr. unfold _format_doctests in Hr.
  apply format_parts_yielded in Hr as (part & Hin & Hok).
  apply tl_In in Hin.
  destruct (split_from_dash_free (String.length report) report "" (le_n _) eq_refl)
    as [HF _].
  fold (Re.split dashes report) in HF.
  rewrite Forall_forall in HF. specialize (HF part Hin).
  apply format_part_ok_inv in Hok
    as (path & line & fn & src & e5 & e6 & e7 & e8 & z
        & Hs & _ & _ & -> & _ & _).
  apply search_path_in_part in Hs as (pre & path' & rest & -> & Hnth).
  cbn in Hnth. inversion Hnth; subst path'.
  rewrite !mem_append in HF.
  apply orb_false_iff in HF as [_ HF].
  apply orb_false_iff in HF as [_ HF].
  now apply orb_false_iff in HF as [HF _].
Qed.

Lemma format_doctests_no_dash_in_file_name_witness :
  let r := mkLineset "fail" "/foo.py" 5 ["expected '    foo' but got nothing"] in
  In r (yielded (_format_doctests Samples.report)) /\
  mem "-" (ls_fname r) = false.
Proof.
  intros r.
  assert (H : In r (yielded (_format_doctests Samples.report)))
    by (vm_compute; left; reflexivity).
  split; [exact H|].
  exact (format_doctests_no_dash_in_file_name Samples.report r H).
Defined.

(** X12. The parser ends with an exception in two ways only: [AttributeError]
    at a part that the pattern does not match, [ValueError] at a part
    that matches with no digit for the line number. *)
Theorem format_doctests_raises_only (report : string) (e : exn) :
  raised (_format_doctests report) = Some e ->
  exists part,
    In part (tl (Re.split dashes report)) /\
    ((Re.search doctest_value_pattern part = None /\ e = AttributeError) \/
     (nth_error (Re.groups_of_search doctest_value_pattern part) 1 = Some (Some "")
      /\ e = ValueError)).
Proof.
  intros H. unfold _format_doctests in H.
  apply format_parts_raised in H as (part & Hin & Hr).
  exists part. split; [exact Hin|]. now apply format_part_raise_inv.
Qed.

Lemma format_doctests_raises_only_witness :
  raised (_format_doctests Samples.report_negative) = Some AttributeError /\
  exists part,
    In part (tl (Re.split dashes Samples.report_negative)) /\
    ((Re.search doctest_value_pattern part = None /\ AttributeError = AttributeError) \/
     (nth_error (Re.groups_of_search doctest_value_pattern part) 1 = Some (Some "")
      /\ AttributeError = ValueError)).
Proof.
  assert (H : raised (_format_doctests Samples.report_negative) = Some AttributeError)
    by (vm_compute; reflexivity).
  split; [exact H|].
  exact (format_doctests_raises_only Samples.report_negative AttributeError H).
Defined.

(** ** Sections of the layout, one outcome at a time *)

(** The pattern up to the outcome, on the start of a section. *)
Lemma leads_section_head (outcome : Re.regex)
      (path line fn indent src rest s' : string) (g' : Re.groups) :
  mem DQ path = false ->
  Re.all_in Re.CDigit line = true ->
  mem LF fn = false ->
  Re.all_in Re.CSpace indent = true ->
  src <> "" ->
  Re.stops Re.CSpace src = true ->
  mem LF src = false ->
  Re.leads outcome rest
           [Some path; Some line; Some fn; Some src; None; None; None; None]
           s' g' ->
  Re.leads
    (Re.Lit ("File " ++ chr DQ) ;;
     Re.Group 1 (Re.Star (Re.CNot DQ)) ;;
     Re.Lit (chr DQ ++ ", line ") ;;
     Re.Group 2 (Re.Star Re.CDigit) ;;
     Re.Lit ", in " ;;
     Re.Group 3 (Re.Star (Re.CNot LF)) ;;
     Re.Lit (chr LF ++ "Failed example:" ++ chr LF) ;;
     Re.Star Re.CSpace ;;
     Re.Group 4 (Re.Star (Re.CNot LF)) ;;
     Re.Lit (chr LF) ;;
     outcome)%re
    (Layout.section_head path line fn indent src ++ rest)
    (repeat None 8) s' g'.
Proof.
  intros Hpath Hline Hfn Hindent Hsrc0 Hsrc1 Hsrc2 Hout.
  replace (Layout.section_head path line fn indent src ++ rest)
    with (("File " ++ chr DQ) ++ path ++ (chr DQ ++ ", line ") ++ line
          ++ ", in " ++ fn ++ (chr LF ++ "Failed example:" ++ chr LF)
          ++ indent ++ src ++ chr LF ++ rest).
  2:{ unfold Layout.section_head, Samples.file_header.
      rewrite !append_assoc. reflexivity. }
  eapply leads_seq; [apply leads_lit, strip_prefix_app|].
  eapply leads_seq.
  { apply leads_group, leads_star; [|reflexivity].
    now rewrite all_in_not_mem, Hpath. }
  eapply leads_seq; [apply leads_lit, strip_prefix_app|].
  eapply leads_seq.
  { apply leads_group, leads_star; [assumption | reflexivity]. }
  eapply leads_seq; [apply leads_lit, strip_prefix_app|].
  eapply leads_seq.
  { apply leads_group, leads_star; [|reflexivity].
    now rewrite all_in_not_mem, Hfn. }
  eapply leads_seq; [apply leads_lit, strip_prefix_app|].
  eapply leads_seq.
  { apply leads_star; [assumption | now apply stops_app]. }
  eapply leads_seq.
  { apply leads_group, leads_star; [|reflexivity].
    now rewrite all_in_not_mem, Hsrc2. }
  eapply leads_seq; [apply leads_lit, strip_prefix_app|].
  rewrite !consumed_app. exact Hout.
Qed.

Lemma star_any_none {R : Type} (s : string) (k : string -> option R) :
  (forall u t, s = u ++ t -> k t = None) -> Re.star Re.CAny s k = None.
Proof.
  induction s as [|c s IH]; intros H.
  - apply (H "" ""). reflexivity.
  - cbn [Re.star Re.in_class]. rewrite IH.
    + apply (H "" (String c s)). reflexivity.
    + intros u t ->. apply (H (String c u) t). reflexivity.
Qed.

(** A greedy [.*] ends at the last place from which the rest of the
    pattern matches. *)
Lemma star_any_last {R : Type} (a : string) (c : ascii) (rest : string)
      (k : string -> option R) (x : R) :
  k (String c rest) = Some x ->
  (forall u t, rest = u ++ t -> k t = None) ->
  Re.star Re.CAny (a ++ String c rest) k = Some x.
Proof.
  intros Hk Hnone. induction a as [|b a IH].
  - cbn [append Re.star Re.in_class]. now rewrite (star_any_none rest k Hnone).
  - cbn [append Re.star Re.in_class]. now rewrite IH.
Qed.

Lemma leads_group_any_then (i : nat) (r2 : Re.regex) (a : string) (c : ascii)
      (rest s2 : string) (g g2 : Re.groups) :
  (forall u t g', rest = u ++ t -> Re.fails r2 t g') ->
  Re.leads r2 (String c rest) (Re.set_group i a g) s2 g2 ->
  Re.leads (Re.Seq (Re.Group i (Re.Star Re.CAny)) r2) (a ++ String c rest) g s2 g2.
Proof.
  intros Hfail Hl R k x Hk. cbn [Re.rmatch].
  apply star_any_last.
  - rewrite consumed_app. now apply Hl.
  - intros u t Hut. now apply (Hfail u t).
Qed.

Lemma fails_lit (l s : string) (g : Re.groups) :
  Re.strip_prefix l s = None -> Re.fails (Re.Lit l) s g.
Proof. intros H R k. cbn [Re.rmatch]. now rewrite H. Qed.

Lemma fails_seq_opt_lit (l : string) (r : Re.regex) (s : string) (g : Re.groups) :
  Re.strip_prefix l s = None ->
  Re.fails r s g ->
  Re.fails (Re.Seq (Re.Opt (Re.Lit l)) r) s g.
Proof.
  intros Hl Hr R k. cbn [Re.rmatch]. rewrite Hl. apply Hr.
Qed.

Lemma leads_opt_take (r : Re.regex) (s s' : string) (g g' : Re.groups) :
  Re.leads r s g s' g' -> Re.leads (Re.Opt r) s g s' g'.
Proof.
  intros H R k x Hk. cbn [Re.rmatch]. now rewrite (H R k x Hk).
Qed.

Lemma leads_opt_skip (r : Re.regex) (s : string) (g : Re.groups) :
  Re.fails r s g -> Re.leads (Re.Opt r) s g s g.
Proof.
  intros H R k x Hk. cbn [Re.rmatch]. now rewrite (H R k).
Qed.

(** A text that [find] does not find starts at no place of the string. *)
Lemma find_absent (s sub : string) :
  (find s sub >=? 0)%Z = false ->
  forall u t, s = u ++ t -> Re.strip_prefix sub t = None.
Proof.
  intros H u t ->.
  destruct (Re.strip_prefix sub t) as [r|] eqn:E; [|reflexivity].
  apply strip_prefix_iff in E. subst t.
  assert (Hf : (find (u ++ sub ++ r) sub >=? 0)%Z = true)
    by (apply find_found_iff; now exists u, r).
  congruence.
Qed.

(** A text that starts with a newline does not start inside a run
    without a newline. *)
Lemma absent_after_line (w tail l : string) :
  mem LF w = false ->
  (forall u t, tail = u ++ t -> Re.strip_prefix (String LF l) t = None) ->
  forall u t, w ++ tail = u ++ t -> Re.strip_prefix (String LF l) t = None.
Proof.
  induction w as [|c w IH]; intros Hw Htail u t Hut; [now apply (Htail u t)|].
  simpl in Hw. apply orb_false_iff in Hw as [Hc Hw].
  destruct u as [|b u].
  - cbn [append] in Hut. subst t. cbn [Re.strip_prefix].
    now rewrite Ascii.eqb_sym, Hc.
  - cbn [append] in Hut. injection Hut as _ Hut. now apply (IH Hw Htail u t).
Qed.

Lemma match_at_got_nothing_section
      (path line fn indent src expected tail : string) :
  mem DQ path = false ->
  Re.all_in Re.CDigit line = true ->
  mem LF fn = false ->
  Re.all_in Re.CSpace indent = true ->
  src <> "" ->
  Re.stops Re.CSpace src = true ->
  mem LF src = false ->
  (find tail (chr LF ++ "Got") >=? 0)%Z = false ->
  Re.match_at doctest_value_pattern
              (Layout.got_nothing_section path line fn indent src expected tail)
  = Some ([Some path; Some line; Some fn; Some src;
           Some expected; None; Some "nothing"; None], tail).
Proof.
  intros Hpath Hline Hfn Hindent Hsrc0 Hsrc1 Hsrc2 Htail.
  apply leads_match_at. rewrite ngroups_doctest_value_pattern.
  replace (Layout.got_nothing_section path line fn indent src expected tail)
    with (Layout.section_head path line fn indent src
          ++ ("Expected:" ++ chr LF) ++ expected
          ++ String LF ("Got nothing" ++ tail)).
  2:{ unfold Layout.got_nothing_section. rewrite !append_assoc. reflexivity. }
  unfold doctest_value_pattern.
  apply leads_section_head; try assumption.
  apply leads_alt_left.
  eapply leads_seq; [apply leads_lit, strip_prefix_app|].
  apply leads_group_any_then.
  - intros u t g' Hut. apply fails_seq_lit.
    apply (absent_after_line "Got nothing" tail "Got" eq_refl
                             (find_absent tail _ Htail) u t Hut).
  - eapply leads_seq.
    { apply (leads_lit _ _ (" nothing" ++ tail)). reflexivity. }
    apply leads_alt_right.
    { apply fails_seq_opt_lit; [reflexivity|].
      apply fails_seq_lit. reflexivity. }
    eapply leads_groups_eq.
    + eapply leads_seq.
      { apply (leads_lit _ _ ("nothing" ++ tail)). reflexivity. }
      apply leads_group, leads_lit, strip_prefix_app.
    + rewrite consumed_app. reflexivity.
Qed.

Lemma match_at_got_section
      (path line fn indent src expected : string) (colon : bool) (actual : string) :
  mem DQ path = false ->
  Re.all_in Re.CDigit line = true ->
  mem LF fn = false ->
  Re.all_in Re.CSpace indent = true ->
  src <> "" ->
  Re.stops Re.CSpace src = true ->
  mem LF src = false ->
  (find (chr LF ++ actual ++ chr LF) (chr LF ++ "Got") >=? 0)%Z = false ->
  Re.match_at doctest_value_pattern
              (Layout.got_section path line fn indent src expected colon actual)
  = Some ([Some path; Some line; Some fn; Some src;
           Some expected; Some actual; None; None], "").
Proof.
  intros Hpath Hline Hfn Hindent Hsrc0 Hsrc1 Hsrc2 Hactual.
  apply leads_match_at. rewrite ngroups_doctest_value_pattern.
  replace (Layout.got_section path line fn indent src expected colon actual)
    with (Layout.section_head path line fn indent src
          ++ ("Expected:" ++ chr LF) ++ expected
          ++ String LF (("Got" ++ (if colon then ":" else ""))
                          ++ chr LF ++ actual ++ String LF "")).
  2:{ unfold Layout.got_section. rewrite !append_assoc. reflexivity. }
  unfold doctest_value_pattern.
  apply leads_section_head; try assumption.
  apply leads_alt_left.
  eapply leads_seq; [apply leads_lit, strip_prefix_app|].
  apply leads_group_any_then.
  - intros u t g' Hut. apply fails_seq_lit.
    apply (absent_after_line ("Got" ++ (if colon then ":" else ""))
                             (chr LF ++ actual ++ String LF "") "Got"
                             ltac:(now destruct colon)
                             (find_absent _ _ Hactual) u t Hut).
  - eapply leads_seq.
    { apply (leads_lit _ _ ((if colon then ":" else "")
                              ++ chr LF ++ actual ++ String LF "")).
      now destruct colon. }
    apply leads_alt_left.
    eapply leads_seq.
    { instantiate (1 := Re.set_group 5 expected
                          [Some path; Some line; Some fn; Some src;
                           None; None; None; None]).
      instantiate (1 := chr LF ++ actual ++ String LF "").
      destruct colon.
      - apply leads_opt_take, leads_lit. reflexivity.
      - apply leads_opt_skip, fails_lit. reflexivity. }
    eapply leads_seq.
    { apply (leads_lit _ _ (actual ++ String LF "")). reflexivity. }
    eapply leads_groups_eq.
    + apply leads_group_any_then.
      * intros u t g' Hut. apply fails_lit.
        destruct u; [|discriminate]. cbn [append] in Hut. now subst t.
      * apply (leads_lit _ _ ""). reflexivity.
    + reflexivity.
Qed.

(** X13. For every section of the layout whose example printed nothing, with
    no [Got] at the start of a later line of the part, the record has kind
    [fail], the file and line of the header, and the one message line
    [expected <repr of the expected block> but got nothing]. *)
Theorem format_part_got_nothing_section
        (pre path line fn indent src expected tail : string) (z : Z) :
  mem "F" pre = false ->
  mem DQ path = false ->
  int line = Ok z ->
  mem LF fn = false ->
  Re.all_in Re.CSpace indent = true ->
  src <> "" ->
  Re.stops Re.CSpace src = true ->
  mem LF src = false ->
  (find tail (chr LF ++ "Got") >=? 0)%Z = false ->
  format_part (pre ++ Layout.got_nothing_section path line fn indent src expected tail)
  = Ok (mkLineset "fail" path z
                  ["expected " ++ repr (Some expected) ++ " but got nothing"]).
Proof.
  intros Hpre Hpath Hline Hfn Hindent Hsrc0 Hsrc1 Hsrc2 Htail.
  unfold format_part.
  rewrite search_skips_before_F by assumption.
  rewrite (search_here _ _ _ _
             (match_at_got_nothing_section path line fn indent src expected tail
                Hpath (int_ok_digits line z Hline) Hfn Hindent Hsrc0 Hsrc1 Hsrc2 Htail)).
  cbn [as_str bind]. rewrite Hline. reflexivity.
Qed.

Lemma format_part_got_nothing_section_witness :
  mem "F" (chr LF) = false /\
  mem DQ "/foo.py" = false /\
  int "5" = Ok 5%Z /\
  mem LF "foo_fn" = false /\
  Re.all_in Re.CSpace "    " = true /\
  "foo_bar()" <> "" /\
  Re.stops Re.CSpace "foo_bar()" = true /\
  mem LF "foo_bar()" = false /\
  (find (chr LF) (chr LF ++ "Got") >=? 0)%Z = false /\
  format_part (chr LF ++ Layout.got_nothing_section
                 "/foo.py" "5" "foo_fn" "    " "foo_bar()" "    foo" (chr LF))
  = Ok (mkLineset "fail" "/foo.py" 5
                  ["expected " ++ repr (Some "    foo") ++ " but got nothing"]).
Proof.
  repeat (split; [first [reflexivity | discriminate]|]).
  apply format_part_got_nothing_section; first [reflexivity | discriminate].
Defined.

(** X14. For every section of the layout with an expected and an actual
    block, the actual block ended by the newline that ends the part and
    without [Got] at the start of one of its lines, the record has kind
    [fail], the file and line of the header, and the one message line
    [expected <repr of the expected block> but got <repr of the actual
    block>]; the colon after [Got] may be missing. *)
Theorem format_part_got_section
        (pre path line fn indent src expected : string) (colon : bool)
        (actual : string) (z : Z) :
  mem "F" pre = false ->
  mem DQ path = false ->
  int line = Ok z ->
  mem LF fn = false ->
  Re.all_in Re.CSpace indent = true ->
  src <> "" ->
  Re.stops Re.CSpace src = true ->
  mem LF src = false ->
  (find (chr LF ++ actual ++ chr LF) (chr LF ++ "Got") >=? 0)%Z = false ->
  format_part (pre ++ Layout.got_section path line fn indent src expected colon actual)
  = Ok (mkLineset "fail" path z
                  ["expected " ++ repr (Some expected)
                               ++ " but got " ++ repr (Some actual)]).
Proof.
  intros Hpre Hpath Hline Hfn Hindent Hsrc0 Hsrc1 Hsrc2 Hactual.
  unfold format_part.
  rewrite search_skips_before_F by assumption.
  rewrite (search_here _ _ _ _
             (match_at_got_section path line fn indent src expected colon actual
                Hpath (int_ok_digits line z Hline) Hfn Hindent Hsrc0 Hsrc1 Hsrc2
                Hactual)).
  cbn [as_str bind]. rewrite Hline. reflexivity.
Qed.

Lemma format_part_got_section_witness :
  mem "F" (chr LF) = false /\
  mem DQ "/foo.py" = false /\
  int "9" = Ok 9%Z /\
  mem LF "foo_fn" = false /\
  Re.all_in Re.CSpace "    " = true /\
  "foo_fn()" <> "" /\
  Re.stops Re.CSpace "foo_fn()" = true /\
  mem LF "foo_fn()" = false /\
  (find (chr LF ++ "    bar" ++ chr LF) (chr LF ++ "Got") >=? 0)%Z = false /\
  format_part (chr LF ++ Layout.got_section
                 "/foo.py" "9" "foo_fn" "    " "foo_fn()" "    foo" true "    bar")
  = Ok (mkLineset "fail" "/foo.py" 9
                  ["expected " ++ repr (Some "    foo")
                               ++ " but got " ++ repr (Some "    bar")]).
Proof.
  repeat (split; [first [reflexivity | discriminate]|]).
  apply format_part_got_section; first [reflexivity | discriminate].
Defined.

(** X15. A section whose header has no digit after [line ] matches the
    pattern, and the loop body raises [ValueError] at [int('')]. *)
Theorem format_part_empty_line_number
        (pre path fn indent src text : string) :
  mem "F" pre = false ->
  mem DQ path = false ->
  mem LF fn = false ->
  Re.all_in Re.CSpace indent = true ->
  src <> "" ->
  Re.stops Re.CSpace src = true ->
  mem LF src = false ->
  format_part (pre ++ Samples.exception_section path "" fn indent src text)
  = Raise ValueError.
Proof.
  intros Hpre Hpath Hfn Hindent Hsrc0 Hsrc1 Hsrc2.
  unfold format_part.
  rewrite search_skips_before_F by assumption.
  rewrite (search_here _ _ _ _
             (match_at_exception_section path "" fn indent src text
                Hpath eq_refl Hfn Hindent Hsrc0 Hsrc1 Hsrc2)).
  reflexivity.
Qed.

Lemma format_part_empty_line_number_witness :
  mem "F" (chr LF) = false /\
  mem DQ "/foo.py" = false /\
  mem LF "foo_fn" = false /\
  Re.all_in Re.CSpace "    " = true /\
  "print(bar)" <> "" /\
  Re.stops Re.CSpace "print(bar)" = true /\
  mem LF "print(bar)" = false /\
  format_part (chr LF ++ Samples.exception_section
                 "/foo.py" "" "foo_fn" "    " "print(bar)" Samples.name_error_text)
  = Raise ValueError.
Proof.
  repeat (split; [first [reflexivity | discriminate]|]).
  apply format_part_empty_line_number; first [reflexivity | discriminate].
Defined.

(** X16. A section that ends right after [Exception raised:] and its newline
    has an empty exception text, which [if exc] takes as absent: the
    record has kind [fail] and the message
    [expected None but got None]. *)
Theorem format_part_empty_exception_text
        (pre path line fn indent src : string) (z : Z) :
  mem "F" pre = false ->
  mem DQ path = false ->
  int line = Ok z ->
  mem LF fn = false ->
  Re.all_in Re.CSpace indent = true ->
  src <> "" ->
  Re.stops Re.CSpace src = true ->
  mem LF src = false ->
  format_part (pre ++ Samples.exception_section path line fn indent src "")
  = Ok (mkLineset "fail" path z ["expected None but got None"]).
Proof.
  intros Hpre Hpath Hline Hfn Hindent Hsrc0 Hsrc1 Hsrc2.
  unfold format_part.
  rewrite search_skips_before_F by assumption.
  rewrite (search_here _ _ _ _
             (match_at_exception_section path line fn indent src ""
                Hpath (int_ok_digits line z Hline) Hfn Hindent Hsrc0 Hsrc1 Hsrc2)).
  cbn [as_str bind]. rewrite Hline. reflexivity.
Qed.

Lemma format_part_empty_exception_text_witness :
  mem "F" (chr LF) = false /\
  mem DQ "/foo.py" = false /\
  int "10" = Ok 10%Z /\
  mem LF "foo_fn" = false /\
  Re.all_in Re.CSpace "    " = true /\
  "print(bar)" <> "" /\
  Re.stops Re.CSpace "print(bar)" = true /\
  mem LF "print(bar)" = false /\
  format_part (chr LF ++ Samples.exception_section
                 "/foo.py" "10" "foo_fn" "    " "print(bar)" "")
  = Ok (mkLineset "fail" "/foo.py" 10 ["expected None but got None"]).
Proof.
  repeat (split; [first [reflexivity | discriminate]|]).
  apply format_part_empty_exception_text; first [reflexivity | discriminate].
Defined.

(** ** A report whose sections have no dash *)

Lemma lstrip_mul_dash (n : nat) (s : string) :
  lstrip "-" (mul "-" n ++ s) = lstrip "-" s.
Proof. induction n as [|n IH]; [reflexivity | exact IH]. Qed.

Lemma lstrip_dash_free (s t : string) :
  s <> "" -> mem "-" s = false -> lstrip "-" (s ++ t) = s ++ t.
Proof.
  intros Hne Hs. destruct s as [|c s]; [now elim Hne|].
  simpl in Hs. apply orb_false_iff in Hs as [Hc _].
  cbn [append lstrip]. now rewrite Hc.
Qed.

Lemma split_sections (secs : list (nat * string)) :
  Forall (fun ns => snd ns <> "" /\ mem "-" (snd ns) = false) secs ->
  forall a : string,
    mem "-" a = false ->
    Re.split dashes (a ++ Layout.sections_text secs) = a :: map snd secs.
Proof.
  induction secs as [|[n sec] secs IH]; intros Hsecs a Ha.
  - cbn [Layout.sections_text map]. rewrite append_nil_r.
    now apply split_dashes_whole.
  - inversion Hsecs as [|x l [Hne Hsec] Hrest]; subst. cbn [snd] in Hne, Hsec.
    cbn [Layout.sections_text map snd].
    change (mul "-" (S n) ++ sec ++ Layout.sections_text secs)
      with (String "-" (mul "-" n ++ sec ++ Layout.sections_text secs)).
    rewrite split_dashes_cut by assumption.
    rewrite lstrip_mul_dash, lstrip_dash_free by assumption.
    f_equal. now apply IH.
Qed.

Lemma format_parts_all_ok (parts : list string) (rs : list lineset) :
  Forall2 (fun p r => format_part p = Ok r) parts rs ->
  format_parts parts = mkRun rs None.
Proof.
  induction 1 as [|p r parts rs Hp _ IH]; [reflexivity|].
  cbn [format_parts]. rewrite Hp, IH. reflexivity.
Qed.

(** X17. In a report made of a preamble and of sections behind runs of
    dashes, where neither the preamble nor a section has a dash in it and
    no section is empty, the pieces are the preamble and the sections: the
    parser works on each section in turn, and when each of them gives a
    record it yields these records, one for each section, in order, and
    returns. *)
Theorem format_doctests_report_of
        (preamble : string) (secs : list (nat * string)) :
  mem "-" preamble = false ->
  Forall (fun ns => snd ns <> "" /\ mem "-" (snd ns) = false) secs ->
  Re.split dashes (Layout.report_of preamble secs) = preamble :: map snd secs /\
  _format_doctests (Layout.report_of preamble secs) = format_parts (map snd secs) /\
  forall rs : list lineset,
    Forall2 (fun ns r => format_part (snd ns) = Ok r) secs rs ->
    _format_doctests (Layout.report_of preamble secs) = mkRun rs None.
Proof.
  intros Hpre Hsecs.
  assert (Hsplit : Re.split dashes (Layout.report_of preamble secs)
                   = preamble :: map snd secs)
    by (now apply split_sections).
  assert (Hrun : _format_doctests (Layout.report_of preamble secs)
                 = format_parts (map snd secs)).
  { unfold _format_doctests. now rewrite Hsplit. }
  split; [exact Hsplit|]. split; [exact Hrun|].
  intros rs Hrs. rewrite Hrun. apply format_parts_all_ok.
  clear -Hrs. induction Hrs; cbn [map]; constructor; auto.
Qed.

Lemma format_doctests_report_of_witness :
  let preamble := Samples.unlines Samples.preamble in
  let secs := [ (48, chr LF ++ Samples.unlines Samples.section_got_nothing);
                (48, chr LF ++ Samples.unlines Samples.section_got_bar) ] in
  mem "-" preamble = false /\
  Forall (fun ns : nat * string => snd ns <> "" /\ mem "-" (snd ns) = false) secs /\
  Re.split dashes (Layout.report_of preamble secs) = preamble :: map snd secs /\
  _format_doctests (Layout.report_of preamble secs) = format_parts (map snd secs).
Proof.
  intros preamble secs.
  assert (H1 : mem "-" preamble = false) by reflexivity.
  assert (H2 : Forall (fun ns : nat * string =>
                         snd ns <> "" /\ mem "-" (snd ns) = false) secs).
  { repeat constructor; discriminate. }
  destruct (format_doctests_report_of preamble secs H1 H2) as (R1 & R2 & _).
  repeat split; assumption.
Defined.

(** ** Line numbers in decimal *)

From Stdlib Require DecimalPos.

Lemma int_acc_string_of_uint_pos (l : Decimal.uint) :
  forall acc : positive,
    int_acc (Z.pos acc) (NilEmpty.string_of_uint l)
    = Ok (Z.pos (Pos.of_uint_acc l acc)).
Proof.
  induction l; intros acc; cbn [NilEmpty.string_of_uint int_acc Pos.of_uint_acc];
    try reflexivity;
    match goal with
    | |- context [digit_val ?c] =>
        change (digit_val c) with (Some (Z.of_nat (nat_of_ascii c - 48)))
    end;
    cbn [nat_of_ascii]; rewrite <- IHl; f_equal; vm_compute Z.of_nat; lia.
Qed.

Lemma int_acc_string_of_uint (l : Decimal.uint) :
  int_acc 0 (NilEmpty.string_of_uint l) = Ok (Z.of_N (Pos.of_uint l)).
Proof.
  induction l; cbn [NilEmpty.string_of_uint int_acc Pos.of_uint];
    try reflexivity;
    match goal with
    | |- context [digit_val ?c] =>
        change (digit_val c) with (Some (Z.of_nat (nat_of_ascii c - 48)))
    end;
    try exact IHl;
    apply int_acc_string_of_uint_pos.
Qed.

Lemma string_of_uint_not_empty (d : Decimal.uint) :
  d <> Decimal.Nil -> NilEmpty.string_of_uint d <> "".
Proof. destruct d; intros H; [now elim H | discriminate ..]. Qed.

(** X18. A line number that is not negative, written with [%d], is read back
    by [int] as the same number: the digits of a section header written
    that way are the digits the emitter prints for its record. *)
Theorem int_of_format_d (z : Z) :
  (0 <= z)%Z -> int (format_d z) = Ok z.
Proof.
  intros Hz. destruct z as [|p|p]; [reflexivity | | lia].
  unfold format_d. cbn [Z.to_int NilZero.string_of_int].
  assert (Hnil : Pos.to_uint p <> Decimal.Nil).
  { intros E. pose proof (DecimalPos.Unsigned.of_to p) as H.
    rewrite E in H. discriminate. }
  unfold NilZero.string_of_uint.
  destruct (Pos.to_uint p) as [|d|d|d|d|d|d|d|d|d|d] eqn:E;
    [now elim Hnil | ..];
    rewrite <- E;
    (unfold int;
     destruct (NilEmpty.string_of_uint (Pos.to_uint p)) eqn:Es;
     [now apply string_of_uint_not_empty in Es; [|rewrite E]|];
     rewrite <- Es, int_acc_string_of_uint, DecimalPos.Unsigned.of_to;
     reflexivity).
Qed.

Lemma int_of_format_d_witness :
  (0 <= 857)%Z /\ int (format_d 857) = Ok 857%Z.
Proof.
  split; [lia|]. apply (int_of_format_d 857). lia.
Defined.

(** ** The score and the base name *)

(** X19. The criterion on [test] reads only what follows the last slash of
    the path: for a path that ends in a name without a slash, the weight 2
    is given when that name has [test] in it, whatever the directories
    before it are called. *)
Theorem calcScore_test_reads_base_name
        (self : NoseMachineReadableOutput) (dir name : string)
        (lineno : Z) (funname : string) (text : option string) :
  mem "/" name = false ->
  (_calcScore self (mkFrame (dir ++ "/" ++ name) lineno funname text) ==
   inject_Z ((if startswith (dir ++ "/" ++ name) (basepath self) then 4 else 0)
             + (if (find name "test" >=? 0)%Z then 2 else 0)
             + (if startswith funname "assert" then 0 else 1)) / 7)%Q.
Proof.
  intros Hname. rewrite calcScore_weights. cbn [frame_fname frame_funname].
  rewrite basename_after_last_slash by assumption. reflexivity.
Qed.

Lemma calcScore_test_reads_base_name_witness :
  mem "/" "util.py" = false /\
  (_calcScore Samples.plugin (mkFrame ("/proj/tests" ++ "/" ++ "util.py") 3 "helper" None)
   == inject_Z ((if startswith ("/proj/tests" ++ "/" ++ "util.py")
                               (basepath Samples.plugin) then 4 else 0)
                + (if (find "util.py" "test" >=? 0)%Z then 2 else 0)
                + (if startswith "helper" "assert" then 0 else 1)) / 7)%Q.
Proof.
  split; [reflexivity|].
  apply (calcScore_test_reads_base_name Samples.plugin "/proj/tests" "util.py").
  reflexivity.
Defined.

(* ================================================================= *)
(** * The claims on paths and on exception sections, on the whole parser *)

(** Against C6 as stated.  With the root [/proj], the path
    [/project/x.py] is not under the root, since it does not start with
    the root and a separator, and yet it is not left as it is. *)
Lemma format_testfname_sibling_not_left_absolute :
  startswith "/project/x.py" ("/proj" ++ "/") = false /\
  _format_testfname (mkPlugin "/proj" []) "/project/x.py" = "ct/x.py" /\
  _format_testfname (mkPlugin "/proj" []) "/project/x.py" <> "/project/x.py".
Proof. repeat split; [discriminate]. Qed.

(** Against C5 as stated.  In a report whose section has the traceback
    indented as doctest prints it, the record's message lines are not
    the lines of the exception text with the last one moved to the front:
    the indentation is gone.  In a report whose exception text has a
    minus sign, the text is cut there: the record has the text up to the
    minus sign only, and the parser then raises. *)
Lemma format_doctests_exception_lines_not_raw :
  (tl (Re.split dashes Layout.indented_report) = [Samples.indented_section] /\
   nth_error (Re.groups_of_search doctest_value_pattern Samples.indented_section) 7
   = Some (Some Samples.indented_text) /\
   exists r,
     _format_doctests Layout.indented_report = mkRun [r] None /\
     ls_etype r = "error" /\
     Ok (ls_lines r) <> last_to_front (split LF Samples.indented_text))
  /\
  (exists r,
      _format_doctests Layout.type_error_report = mkRun [r] (Some AttributeError) /\
      ls_lines r = [ "TypeError: unsupported operand type(s) for ";
                     "Traceback (most recent call last):";
                     "  ..." ] /\
      Ok (ls_lines r) <> last_to_front (split LF Layout.type_error_text)).
Proof.
  split.
  - split; [vm_compute; reflexivity|]. split; [vm_compute; reflexivity|].
    eexists. split; [vm_compute; reflexivity|].
    split; [reflexivity|]. vm_compute. discriminate.
  - eexists. split; [vm_compute; reflexivity|].
    split; [reflexivity|]. vm_compute. discriminate.
Qed.

Lemma format_parts_app_ok (a b : list string) (rs : list lineset) :
  format_parts a = mkRun rs None ->
  format_parts (a ++ b)
  = mkRun (rs ++ yielded (format_parts b)) (raised (format_parts b)).
Proof.
  revert rs; induction a as [|p a IH]; intros rs H.
  - cbn [format_parts] in H. inversion H; subst. cbn [app].
    now destruct (format_parts b).
  - cbn [app format_parts] in *. destruct (format_part p) as [r|e]; [|discriminate].
    destruct (format_parts a) as [ys ra] eqn:E. cbn [yielded raised] in H.
    inversion H; subst. rewrite (IH ys eq_refl). reflexivity.
Qed.

(** C5, amended. In a doctest report made of a preamble and of sections
    behind runs of dashes, with no dash in the preamble or in a section
    and no empty section, whose sections before a given one parse: when
    that section has the layout with the outcome [Exception raised:] and
    some text after it, the parser yields for it, after the records of
    the sections before, a record of kind [error] with the file and line
    of the section header, whose message lines are the exception text,
    with the newlines at its two ends stripped and its common indentation
    removed, split into lines, the last line moved to the front.  The
    report whose one section has the outcome [Exception raised:] followed
    by [Traceback (most recent call last):], [  ...] and [NameError: x]
    gives the one record with the message lines
    [["NameError: x"; "Traceback (most recent call last):"; "  ..."]]. *)
Theorem format_doctests_exception_section :
  (forall (preamble : string) (before after : list (nat * string))
          (rs : list lineset) (n : nat)
          (pre path line fn indent src text : string) (z : Z),
      let sec := pre ++ Samples.exception_section path line fn indent src text in
      mem "-" preamble = false ->
      Forall (fun ns => snd ns <> "" /\ mem "-" (snd ns) = false)
             (before ++ (n, sec) :: after) ->
      _format_doctests (Layout.report_of preamble before) = mkRun rs None ->
      mem "F" pre = false ->
      mem DQ path = false ->
      int line = Ok z ->
      mem LF fn = false ->
      Re.all_in Re.CSpace indent = true ->
      src <> "" ->
      Re.stops Re.CSpace src = true ->
      mem LF src = false ->
      text <> "" ->
      exists init last,
        split LF (Textwrap.dedent (strip LF text)) = (init ++ [last])%list /\
        yielded (_format_doctests
                   (Layout.report_of preamble (before ++ (n, sec) :: after)))
        = (rs ++ mkLineset "error" path z (last :: init)
              :: yielded (format_parts (map snd after)))%list /\
        raised (_format_doctests
                  (Layout.report_of preamble (before ++ (n, sec) :: after)))
        = raised (format_parts (map snd after)))
  /\
  _format_doctests Layout.name_error_report
  = mkRun [ mkLineset "error" "/foo.py" 10
                      [ "NameError: x";
                        "Traceback (most recent call last):";
                        "  ..." ] ]
          None.
Proof.
  split; [|vm_compute; reflexivity].
  intros preamble before after rs n pre path line fn indent src text z sec
         Hpre Hsecs Hbefore HpreF Hpath Hline Hfn Hindent Hsrc0 Hsrc1 Hsrc2 Htext.
  (* the loop body on the section *)
  destruct (exists_last (split_not_nil LF (Textwrap.dedent (strip LF text))))
    as (init & last & Hsplit).
  assert (Hsec : format_part sec = Ok (mkLineset "error" path z (last :: init))).
  { unfold sec, format_part.
    rewrite search_skips_before_F by assumption.
    rewrite (search_here _ _ _ _
               (match_at_exception_section path line fn indent src text
                  Hpath (int_ok_digits line z Hline) Hfn Hindent Hsrc0 Hsrc1 Hsrc2)).
    cbn [as_str bind]. rewrite Hline. cbn [bind].
    destruct text as [|a text]; [now elim Htext|].
    cbn [truthy as_str bind].
    rewrite Hsplit, last_to_front_snoc. reflexivity. }
  (* the pieces of the two reports *)
  assert (Hb : format_parts (map snd before) = mkRun rs None).
  { apply Forall_app in Hsecs as [Hsb _].
    unfold _format_doctests, Layout.report_of in Hbefore.
    now rewrite (split_sections before Hsb preamble Hpre) in Hbefore. }
  assert (Hrun : _format_doctests
                   (Layout.report_of preamble (before ++ (n, sec) :: after))
                 = format_parts (map snd before ++ sec :: map snd after)).
  { unfold _format_doctests, Layout.report_of.
    rewrite (split_sections _ Hsecs preamble Hpre), map_app. reflexivity. }
  exists init, last. split; [exact Hsplit|].
  rewrite Hrun, (format_parts_app_ok _ _ rs Hb).
  cbn [format_parts yielded raised]. rewrite Hsec. cbn [yielded raised].
  split; reflexivity.
Qed.

Lemma format_doctests_exception_section_witness :
  let preamble := Layout.sample_preamble in
  let before := [ (48, chr LF ++ Samples.unlines Samples.section_got_nothing) ] in
  let rs := [ mkLineset "fail" "/foo.py" 5 ["expected '    foo' but got nothing"] ] in
  let sec := chr LF ++ Samples.exception_section
                     "/foo.py" "10" "foo_fn" "    " "print(bar)"
                     Samples.name_error_text in
  mem "-" preamble = false /\
  Forall (fun ns : nat * string => snd ns <> "" /\ mem "-" (snd ns) = false)
         (before ++ (48, sec) :: @nil (nat * string)) /\
  _format_doctests (Layout.report_of preamble before) = mkRun rs None /\
  mem "F" (chr LF) = false /\
  mem DQ "/foo.py" = false /\
  int "10" = Ok 10%Z /\
  mem LF "foo_fn" = false /\
  Re.all_in Re.CSpace "    " = true /\
  "print(bar)" <> "" /\
  Re.stops Re.CSpace "print(bar)" = true /\
  mem LF "print(bar)" = false /\
  Samples.name_error_text <> "" /\
  exists init last,
    split LF (Textwrap.dedent (strip LF Samples.name_error_text))
    = (init ++ [last])%list /\
    yielded (_format_doctests
               (Layout.report_of preamble (before ++ (48, sec) :: @nil (nat * string))))
    = (rs ++ mkLineset "error" "/foo.py" 10 (last :: init)
          :: yielded (format_parts (map snd (@nil (nat * string)))))%list /\
    raised (_format_doctests
              (Layout.report_of preamble (before ++ (48, sec) :: @nil (nat * string))))
    = raised (format_parts (map snd (@nil (nat * string)))).
Proof.
  intros preamble before rs sec.
  assert (H1 : mem "-" preamble = false) by reflexivity.
  assert (H2 : Forall (fun ns : nat * string =>
                         snd ns <> "" /\ mem "-" (snd ns) = false)
                      (before ++ (48, sec) :: @nil (nat * string))).
  { repeat constructor; discriminate. }
  assert (H3 : _format_doctests (Layout.report_of preamble before) = mkRun rs None)
    by (vm_compute; reflexivity).
  repeat (split; [first [assumption | reflexivity | discriminate]|]).
  apply (proj1 format_doctests_exception_section
               preamble before (@nil (nat * string)) rs 48 (chr LF) "/foo.py" "10" "foo_fn"
               "    " "print(bar)" Samples.name_error_text 10%Z);
    first [assumption | reflexivity | discriminate].
Defined.
